(** * popper: the [run] command (cli/popper/commands/cmd_run.py)

    A shallow embedding of the [cli] entry point of [popper run] and of the
    collaborators it drives (logging sink, workflow parser, configuration
    loader, workflow runner), with the properties the specification states
    about it. *)

From Stdlib Require Import Ascii String List Bool ZArith Lia.
Import ListNotations.
Local Open Scope string_scope.
Local Open Scope list_scope.

(** ** Python values *)

(** An instance of a class deriving from [Exception]: its class name, what
    [str(e)] prints, and the text the interpreter renders for it and its
    traceback (header, stack frames, causes, final line). *)
Record exception := mkException {
  exc_class : string;
  exc_str : string;
  exc_traceback : string
}.

(** What a [raise] can carry: every class deriving from [BaseException].
    Only [Exc] derives from [Exception]. *)
Inductive py_exc :=
| SystemExit (code : Z)
| KeyboardInterrupt
| GeneratorExit
| Exc (e : exception).

(** [isinstance(x, Exception)], giving the instance when it is one. *)
Definition as_Exception (x : py_exc) : option exception :=
  match x with
  | Exc e => Some e
  | _ => None
  end.

Definition newline : string := String (Ascii.ascii_of_nat 10) "".

(** [traceback.format_exc()] while [e] is being handled. *)
Definition format_exc (e : exception) : string := exc_traceback e.


(** Truth value of a [str] or [None] in a condition. *)
Definition truthy (o : option string) : bool :=
  match o with
  | None => false
  | Some s => negb (String.eqb s "")
  end.

(** Truth value of a tuple in a condition. *)
Definition truthy_tuple {A : Type} (t : list A) : bool :=
  match t with
  | [] => false
  | _ :: _ => true
  end.

(** ** The logging sink (popper.log) *)

Inductive level := DEBUG | STEP_INFO | INFO | WARNING | ERROR.

(** Numeric value of a level: those of Python's [logging] module, and the
    value [step_info] that popper.log registers for its own [STEP_INFO]. *)
Definition levelno (step_info : Z) (l : level) : Z :=
  match l with
  | DEBUG => 10
  | STEP_INFO => step_info
  | INFO => 20
  | WARNING => 30
  | ERROR => 40
  end.

(** The state of the logger [log] and of the module global [msg_prefix]. *)
Record sink := mkSink {
  sink_level : level;
  msg_prefix : string;
  log_files : list string
}.

(** [Logger.isEnabledFor]: a record passes when its level is not below the
    threshold. *)
Definition isEnabledFor (step_info : Z) (s : sink) (l : level) : bool :=
  (levelno step_info (sink_level s) <=? levelno step_info l)%Z.

(** ** The command's parameters *)

(** The parameters [cli] receives.  [W] is the type of [workspace]: a path
    once click has filled in the default, an optional path on the command
    line. *)
Record cli_args (W : Type) := mkArgs {
  step : option string;
  wfile : string;
  debug : bool;
  dry_run : bool;
  log_file : option string;
  quiet : bool;
  reuse : bool;
  engine : option string;
  resource_manager : option string;
  skip : list string;
  skip_pull : bool;
  skip_clone : bool;
  substitution : list string;
  allow_loose : bool;
  workspace : W;
  conf : option string
}.

Arguments mkArgs {W}.
Arguments step {W}.
Arguments wfile {W}.
Arguments debug {W}.
Arguments dry_run {W}.
Arguments log_file {W}.
Arguments quiet {W}.
Arguments reuse {W}.
Arguments engine {W}.
Arguments resource_manager {W}.
Arguments skip {W}.
Arguments skip_pull {W}.
Arguments skip_clone {W}.
Arguments substitution {W}.
Arguments allow_loose {W}.
Arguments workspace {W}.
Arguments conf {W}.

(** The working directory of the process when the module cmd_run is loaded
    (its decorators are evaluated then) and when the command is invoked. *)
Record process_env := mkEnv {
  cwd_at_import : string;
  cwd_at_invocation : string
}.

(** The [default=os.getcwd()] of the [--workspace] option: the call is an
    argument of the decorator, evaluated once, when the module is loaded. *)
Definition workspace_default (env : process_env) : string :=
  cwd_at_import env.

(** click hands [cli] the option's value, or its default when the option is
    not on the command line. *)
Definition click_params (env : process_env) (a : cli_args (option string))
  : cli_args string :=
  mkArgs (step a) (wfile a) (debug a) (dry_run a) (log_file a) (quiet a)
         (reuse a) (engine a) (resource_manager a) (skip a) (skip_pull a)
         (skip_clone a) (substitution a) (allow_loose a)
         (match workspace a with
          | Some w => w
          | None => workspace_default env
          end)
         (conf a).

Section Command.

(** The values the collaborators exchange through [cli]: the parsed
    workflow, the run configuration and the result of a run. *)
Context {workflow config run_result : Type}.

(** What an observer of one invocation sees, in order. *)
Inductive event :=
| EvLog (s : sink) (lvl : level) (msg : string)
| EvAddLog (path : string)
| EvParse (file : string) (target : option string)
          (skipped_steps substitutions : list string) (loose : bool)
| EvLoad (engine_name resman_name config_file : option string)
         (reuse_ dry_run_ skip_pull_ skip_clone_ : bool)
         (workspace_dir : string)
| EvRunner (c : config)
| EvEnter
| EvRun (wf : workflow)
| EvBackend (step_id : string)
| EvExit (exc : option py_exc).

(** What a collaborator does while it is called: it writes records to the
    sink and calls the execution backend. *)
Inductive effect :=
| Log (lvl : level) (msg : string)
| Backend (step_id : string).

(** A call of a collaborator: its effects, then a value or an exception. *)
Definition call (A : Type) : Type := list effect * (A + py_exc).

(** The modules [cli] imports from the rest of the package. *)
Record collaborators := mkCollaborators {
  WorkflowParser_parse :
    string -> option string -> list string -> list string -> bool ->
    call workflow;
  ConfigLoader_load :
    option string -> option string -> option string ->
    bool -> bool -> bool -> bool -> string -> call config;
  WorkflowRunner_init : config -> call unit;
  WorkflowRunner_enter : config -> call unit;
  WorkflowRunner_run : config -> workflow -> call run_result;
  WorkflowRunner_exit : config -> option py_exc -> call bool
}.

(** *** A monad for the command: sink state, trace, exceptions *)

Definition M (A : Type) : Type := sink -> list event * sink * (A + py_exc).

Definition ret {A : Type} (x : A) : M A := fun s => ([], s, inl x).

Definition bind {A B : Type} (m : M A) (k : A -> M B) : M B :=
  fun s =>
    match m s with
    | (t, s', inl x) =>
        match k x s' with
        | (t', s'', r) => (t ++ t', s'', r)
        end
    | (t, s', inr e) => (t, s', inr e)
    end.

Notation "x <- m ;; k" := (bind m (fun x => k))
  (at level 100, m at next level, right associativity).
Notation "m ;; k" := (bind m (fun _ => k))
  (at level 100, right associativity).

(** [try: body / except Exception as e: handler e]. *)
Definition try_except_Exception {A : Type} (body : M A)
  (handler : exception -> M A) : M A :=
  fun s =>
    match body s with
    | (t, s', inl x) => (t, s', inl x)
    | (t, s', inr x) =>
        match as_Exception x with
        | Some e =>
            match handler e s' with
            | (t', s'', r) => (t ++ t', s'', r)
            end
        | None => (t, s', inr x)
        end
    end.

(** [with mgr: body], once [mgr.__enter__()] has returned: [__exit__] is
    called with the exception that left the body, or with none; a true
    result swallows the exception. *)
Definition with_exit {A : Type} (exit_ : option py_exc -> M bool)
  (body : M A) : M unit :=
  fun s =>
    match body s with
    | (t, s', inl _) =>
        match exit_ None s' with
        | (t', s'', inl _) => (t ++ t', s'', inl tt)
        | (t', s'', inr e') => (t ++ t', s'', inr e')
        end
    | (t, s', inr e) =>
        match exit_ (Some e) s' with
        | (t', s'', inl true) => (t ++ t', s'', inl tt)
        | (t', s'', inl false) => (t ++ t', s'', inr e)
        | (t', s'', inr e') => (t ++ t', s'', inr e')
        end
    end.

(** The effects of a collaborator as events: a record is seen with the
    sink as it is when written. *)
Definition observe (s : sink) (ef : effect) : event :=
  match ef with
  | Log lvl msg => EvLog s lvl msg
  | Backend i => EvBackend i
  end.

(** Calling a collaborator: the call, its effects, its result. *)
Definition invoke {A : Type} (ev : event) (c : call A) : M A :=
  fun s => (ev :: map (observe s) (fst c), s, snd c).

(** *** The operations of the sink *)

(** [log.setLevel(level)]. *)
Definition log_setLevel (l : level) : M unit :=
  fun s => ([], mkSink l (msg_prefix s) (log_files s), inl tt).

(** [logging.msg_prefix = p]. *)
Definition set_msg_prefix (p : string) : M unit :=
  fun s => ([], mkSink (sink_level s) p (log_files s), inl tt).

(** Modelled from the spec: [logging.add_log(log, path)] of popper.log,
    which is not among the sources.  A file handler for the path is
    attached to the logger. *)
Definition logging_add_log (path : string) : M unit :=
  fun s => ([EvAddLog path],
            mkSink (sink_level s) (msg_prefix s) (path :: log_files s),
            inl tt).

(** [log.debug(msg)]. *)
Definition log_debug (msg : string) : M unit :=
  fun s => ([EvLog s DEBUG msg], s, inl tt).

(** Modelled from the spec: [log.fail] of popper.log, which is not among
    the sources.  It reports the message at error level and aborts the
    run; the abort is the interpreter's [SystemExit] with status 1. *)
Definition log_fail {A : Type} (msg : string) : M A :=
  fun s => ([EvLog s ERROR msg], s, inr (SystemExit 1)).

(** *** The command *)

Definition DRYRUN : string := "DRYRUN: ".

Definition conflicting_filters : string :=
  "`--skip` can not be used when STEP argument is passed.".

(** The level [cli] computes from [--quiet] and [--debug]. *)
Definition cli_level (a : cli_args string) : level :=
  let level := STEP_INFO in
  let level := if quiet a then INFO else level in
  let level := if debug a then DEBUG else level in
  level.

(** The [try] statement around [runner.run(wf)]. *)
Definition guarded_run (w : collaborators) (c : config) (wf : workflow)
  : M unit :=
  try_except_Exception
    (invoke (EvRun wf) (WorkflowRunner_run w c wf) ;; ret tt)
    (fun e =>
       log_debug (format_exc e) ;;
       log_fail (exc_str e)).

(** [with WorkflowRunner(config) as runner: ...]. *)
Definition with_runner (w : collaborators) (c : config) (wf : workflow)
  : M unit :=
  invoke (EvRunner c) (WorkflowRunner_init w c) ;;
  invoke EvEnter (WorkflowRunner_enter w c) ;;
  with_exit (fun exc => invoke (EvExit exc) (WorkflowRunner_exit w c exc))
            (guarded_run w c wf).

(** Lines 141 to 154: the level, the dry-run marker, the log file. *)
Definition setup_logging (a : cli_args string) : M unit :=
  log_setLevel (cli_level a) ;;
  (if dry_run a then set_msg_prefix DRYRUN else ret tt) ;;
  (if truthy (log_file a)
   then match log_file a with
        | Some f => logging_add_log f
        | None => ret tt
        end
   else ret tt).

(** Lines 156 to 158: [--skip] together with STEP. *)
Definition check_filters (a : cli_args string) : M unit :=
  if truthy_tuple (skip a) && truthy (step a)
  then log_fail conflicting_filters
  else ret tt.

(** Lines 156 to 185: the filters are checked, the workflow is parsed,
    the configuration is loaded and the runner runs the workflow. *)
Definition run_workflow (w : collaborators) (a : cli_args string) : M unit :=
  check_filters a ;;
  wf <- invoke (EvParse (wfile a) (step a) (skip a) (substitution a)
                        (allow_loose a))
               (WorkflowParser_parse w (wfile a) (step a) (skip a)
                                     (substitution a) (allow_loose a)) ;;
  c <- invoke (EvLoad (engine a) (resource_manager a) (conf a) (reuse a)
                      (dry_run a) (skip_pull a) (skip_clone a)
                      (workspace a))
              (ConfigLoader_load w (engine a) (resource_manager a) (conf a)
                                 (reuse a) (dry_run a) (skip_pull a)
                                 (skip_clone a) (workspace a)) ;;
  with_runner w c wf.

Definition cli (w : collaborators) (a : cli_args string) : M unit :=
  setup_logging a ;;
  run_workflow w a.

(** The command as click runs it. *)
Definition main (w : collaborators) (env : process_env)
  (a : cli_args (option string)) : M unit :=
  cli w (click_params env a).

(** *** Reading a run *)

Definition trace_of {A : Type} (r : list event * sink * (A + py_exc))
  : list event := fst (fst r).

Definition sink_of {A : Type} (r : list event * sink * (A + py_exc))
  : sink := snd (fst r).

Definition outcome_of {A : Type} (r : list event * sink * (A + py_exc))
  : A + py_exc := snd r.

(** The sink as [setup_logging] leaves it, and the event of attaching the
    log file. *)
Definition setup_sink (a : cli_args string) (s0 : sink) : sink :=
  mkSink (cli_level a)
         (if dry_run a then DRYRUN else msg_prefix s0)
         (match log_file a with
          | Some f => if truthy (Some f) then f :: log_files s0
                      else log_files s0
          | None => log_files s0
          end).

Definition logfile_events (a : cli_args string) : list event :=
  match log_file a with
  | Some f => if truthy (Some f) then [EvAddLog f] else []
  | None => []
  end.

(** The records the [except] clause writes for a result of [run]. *)
Definition handler_events (s : sink) (r : call run_result) : list event :=
  match snd r with
  | inr (Exc e) => [EvLog s DEBUG (format_exc e); EvLog s ERROR (exc_str e)]
  | _ => []
  end.

(** How the [try] statement ends for a result of [run]. *)
Definition body_outcome (r : call run_result) : unit + py_exc :=
  match snd r with
  | inl _ => inl tt
  | inr (Exc _) => inr (SystemExit 1)
  | inr x => inr x
  end.

(** The exception [__exit__] is handed when the body ended with [r]. *)
Definition exit_argument (r : unit + py_exc) : option py_exc :=
  match r with
  | inl _ => None
  | inr e => Some e
  end.

(** How the [with] statement ends, from the body and from [__exit__]. *)
Definition with_outcome (body : unit + py_exc) (x : bool + py_exc)
  : unit + py_exc :=
  match body, x with
  | _, inr e' => inr e'
  | inl _, inl _ => inl tt
  | inr _, inl true => inl tt
  | inr e, inl false => inr e
  end.

(** Calls that leave [cli] for a collaborator or for the backend. *)
Definition is_call (ev : event) : bool :=
  match ev with
  | EvLog _ _ _ | EvAddLog _ => false
  | _ => true
  end.

Definition collaborator_calls (t : list event) : list event :=
  filter is_call t.

(** The steps handed to the execution backend, in order. *)
Fixpoint executed_steps (t : list event) : list string :=
  match t with
  | [] => []
  | EvBackend i :: t' => i :: executed_steps t'
  | _ :: t' => executed_steps t'
  end.

(** What [cli] lets through once logging is set up in the sink [s]: records
    are written under [s], no log file is attached any more, and the parser
    and the loader are called with the parameters of the command. *)
Definition after_setup (a : cli_args string) (s : sink) (ev : event) : Prop :=
  match ev with
  | EvLog s' _ _ => s' = s
  | EvAddLog _ => False
  | EvParse f t sk su l =>
      f = wfile a /\ t = step a /\ sk = skip a /\ su = substitution a
      /\ l = allow_loose a
  | EvLoad en rn cf r d sp sc wd =>
      en = engine a /\ rn = resource_manager a /\ cf = conf a
      /\ r = reuse a /\ d = dry_run a /\ sp = skip_pull a
      /\ sc = skip_clone a /\ wd = workspace a
  | _ => True
  end.

(** A computation that leaves the sink as it is and whose events all
    satisfy [P] of that sink. *)
Definition keeps {A : Type} (P : sink -> event -> Prop) (m : M A) : Prop :=
  forall s, Forall (P s) (trace_of (m s)) /\ sink_of (m s) = s.

(** Every record of the trace satisfies [P] of the sink it was written
    under, of its level and of its message. *)
Definition records (P : sink -> level -> string -> Prop) (t : list event)
  : Prop :=
  Forall (fun ev => match ev with
                    | EvLog s lvl msg => P s lvl msg
                    | _ => True
                    end) t.

(** No log file is attached in the trace. *)
Definition no_log_file (t : list event) : Prop :=
  Forall (fun ev => match ev with
                    | EvAddLog _ => False
                    | _ => True
                    end) t.

(** Every call of [ConfigLoader.load] in the trace passes the workspace
    [dir]. *)
Definition loads_workspace (dir : string) (t : list event) : Prop :=
  Forall (fun ev => match ev with
                    | EvLoad _ _ _ _ _ _ _ wd => wd = dir
                    | _ => True
                    end) t.

End Command.



(** ** Sample invocations *)

(** A sink with no prefix and no log file, at the step-info level. *)
Definition plain_sink : sink := mkSink STEP_INFO "" [].

(** Collaborators that exchange no value, log nothing and return, but for
    [run], which ends as [r] says; [__exit__] returns a false value. *)
Definition runner_ending (r : unit + py_exc) : @collaborators unit unit unit :=
  mkCollaborators
    (fun _ _ _ _ _ => ([], inl tt))
    (fun _ _ _ _ _ _ _ _ => ([], inl tt))
    (fun _ => ([], inl tt))
    (fun _ => ([], inl tt))
    (fun _ _ => ([], r))
    (fun _ _ => ([], inl false)).

(** [popper run -f wf.yml], with the given STEP and [--skip] values, and
    flags [-q] and [-d]. *)
Definition sample_args {W : Type} (target : option string)
  (skipped : list string) (q d : bool) (ws : W) : cli_args W :=
  mkArgs target "wf.yml" d false None q false None None skipped false false
         [] false ws None.

Definition boom : exception :=
  mkException "RuntimeError" "boom"
    ("Traceback (most recent call last):" ++ newline
     ++ "  File runner.py, line 1, in run" ++ newline
     ++ "RuntimeError: boom" ++ newline)%string.

(** * The collaborators, after the specification

    The parser, the loader and the runner are not among the sources.  The
    definitions below follow the specification's sections 3, 4 and 6. *)

(** Modelled from the spec: a field of a step is text with placeholders for
    substitution variables (section 4.1). *)
Inductive part :=
| Lit (text : string)
| Var (name : string).

(** Modelled from the spec: a declared step, with its identifier, its
    fields and the steps it depends on (section 3). *)
Record declared_step := mkStep {
  step_id : string;
  step_fields : list part;
  step_needs : list string
}.

(** Modelled from the spec: a step whose placeholders are replaced. *)
Record resolved_step := mkResolved {
  resolved_id : string;
  resolved_fields : list string;
  resolved_needs : list string
}.

(** Modelled from the spec: the run configuration (sections 3 and 6). *)
Record run_config := mkConfig {
  cfg_engine : string;
  cfg_resman : string;
  cfg_workspace : string;
  cfg_dry_run : bool;
  cfg_reuse : bool;
  cfg_skip_pull : bool;
  cfg_skip_clone : bool
}.

(** Modelled from the spec: what a configuration file may name. *)
Record config_file := mkConfigFile {
  file_engine : option string;
  file_resman : option string
}.

(** Modelled from the spec: the outcome of a step in the run result
    (section 3). *)
Inductive step_state :=
| Succeeded
| Failed (exit_code : Z)
| Skipped.

(** Modelled from the spec: what the execution backend, reached through
    the resource manager, answers for a step: an exit code, or an
    unexpected fault. *)
Inductive backend_answer :=
| Exit (code : Z)
| Fault (e : exception).

(** A substitution [KEY=value] of the command line, split at its first
    equals sign. *)
Fixpoint split_substitution (s : string) : string * string :=
  match s with
  | EmptyString => (EmptyString, EmptyString)
  | String ch rest =>
      if Ascii.eqb ch "="%char then (EmptyString, rest)
      else let (k, v) := split_substitution rest in (String ch k, v)
  end.

Fixpoint lookup (kv : list (string * string)) (k : string) : option string :=
  match kv with
  | [] => None
  | (k', v) :: kv' => if String.eqb k' k then Some v else lookup kv' k
  end.

Definition mentions (k : string) (p : part) : bool :=
  match p with
  | Var n => String.eqb n k
  | Lit _ => false
  end.

(** Whether some step of the workflow refers to the variable [k]. *)
Definition referenced (wf : list declared_step) (k : string) : bool :=
  existsb (fun st => existsb (mentions k) (step_fields st)) wf.

(** Modelled from the spec: the substitution keys no step refers to
    (section 4.1). *)
Definition unused_keys (wf : list declared_step) (kv : list (string * string))
  : list string :=
  filter (fun k => negb (referenced wf k)) (map fst kv).

Definition unused_substitution (k : string) : exception :=
  mkException "UnusedSubstitution" k
    ("Traceback (most recent call last):" ++ newline
     ++ "UnusedSubstitution: " ++ k ++ newline)%string.

Definition unresolved_variable (n : string) : exception :=
  mkException "UnresolvedVariable" n
    ("Traceback (most recent call last):" ++ newline
     ++ "UnresolvedVariable: " ++ n ++ newline)%string.

(** Modelled from the spec: [resolve] of section 4.1, the placeholders of
    a step replaced by their values; a placeholder without a value is an
    error, given by its name. *)
Fixpoint resolve_fields (kv : list (string * string)) (ps : list part)
  : list string + string :=
  match ps with
  | [] => inl []
  | Lit t :: ps' =>
      match resolve_fields kv ps' with
      | inl l => inl (t :: l)
      | inr n => inr n
      end
  | Var n :: ps' =>
      match lookup kv n with
      | None => inr n
      | Some v =>
          match resolve_fields kv ps' with
          | inl l => inl (v :: l)
          | inr n' => inr n'
          end
      end
  end.

Definition resolve (kv : list (string * string)) (st : declared_step)
  : resolved_step + string :=
  match resolve_fields kv (step_fields st) with
  | inl l => inl (mkResolved (step_id st) l (step_needs st))
  | inr n => inr n
  end.

Fixpoint resolve_all (kv : list (string * string)) (wf : list declared_step)
  : list resolved_step + string :=
  match wf with
  | [] => inl []
  | st :: wf' =>
      match resolve kv st with
      | inr n => inr n
      | inl r =>
          match resolve_all kv wf' with
          | inl l => inl (r :: l)
          | inr n => inr n
          end
      end
  end.

Definition mem (x : string) (l : list string) : bool :=
  existsb (String.eqb x) l.

(** Modelled from the spec: the execution order honours the declared
    dependencies (section 4.4).  The next step is the first, in declared
    order, whose dependencies are all placed; a step whose dependencies
    never are is never placed.  Without declared dependencies this is the
    declared order (section 3). *)
Definition ready (placed : list string) (st : declared_step) : bool :=
  forallb (fun n => mem n placed) (step_needs st).

Fixpoint take_ready (placed : list string) (pending : list declared_step)
  : option (declared_step * list declared_step) :=
  match pending with
  | [] => None
  | st :: rest =>
      if ready placed st then Some (st, rest)
      else match take_ready placed rest with
           | Some (x, rest') => Some (x, st :: rest')
           | None => None
           end
  end.

Fixpoint order_from (fuel : nat) (placed : list string)
  (pending : list declared_step) : list declared_step :=
  match fuel with
  | O => []
  | S fuel' =>
      match take_ready placed pending with
      | None => []
      | Some (st, rest) =>
          st :: order_from fuel' (step_id st :: placed) rest
      end
  end.

Definition execution_order (wf : list declared_step) : list declared_step :=
  order_from (length wf) [] wf.

(** Modelled from the spec: [plan] of section 4.4.  With a target step only
    that step is eligible; with a skip-list every other step is; the
    eligible steps come in execution order.  A step argument is given
    when the truth test of the command's guard says so. *)
Definition plan (wf : list declared_step) (target : option string)
  (skipped : list string) : list declared_step :=
  match target with
  | Some t =>
      if truthy target
      then filter (fun st => String.eqb (step_id st) t) (execution_order wf)
      else filter (fun st => negb (mem (step_id st) skipped))
                  (execution_order wf)
  | None =>
      filter (fun st => negb (mem (step_id st) skipped)) (execution_order wf)
  end.

(** Modelled from the spec: [WorkflowParser.parse].  The declared workflow
    of the file is given by [declared]; the unused-substitution check runs
    over the whole workflow unless loose, then the eligible steps are
    resolved. *)
Definition parse (declared : string -> list declared_step)
  (file : string) (target : option string) (skipped : list string)
  (substitutions : list string) (loose : bool)
  : @call (list resolved_step) :=
  let wf := declared file in
  let kv := map split_substitution substitutions in
  match (if loose then [] else unused_keys wf kv) with
  | k :: _ => ([], inr (Exc (unused_substitution k)))
  | [] =>
      match resolve_all kv (plan wf target skipped) with
      | inl l => ([], inl l)
      | inr n => ([], inr (Exc (unresolved_variable n)))
      end
  end.

(** Modelled from the spec: [ConfigLoader.load].  A value given by a flag
    overrides the value of the configuration file (section 6), which
    overrides the default. *)
Definition load (read : string -> config_file)
  (default_engine default_resman : string)
  (engine_name resman_name config_path : option string)
  (reuse_ dry_run_ skip_pull_ skip_clone_ : bool) (workspace_dir : string)
  : @call run_config :=
  let from_file :=
    match config_path with
    | Some path => read path
    | None => mkConfigFile None None
    end in
  let pick (flag in_file : option string) (default : string) :=
    match flag, in_file with
    | Some v, _ => v
    | None, Some v => v
    | None, None => default
    end in
  ([], inl (mkConfig (pick engine_name (file_engine from_file) default_engine)
                     (pick resman_name (file_resman from_file) default_resman)
                     workspace_dir dry_run_ reuse_ skip_pull_ skip_clone_)).

Definition describe (st : resolved_step) : string :=
  String.concat " " (resolved_id st :: resolved_fields st).

(** The state of the step [n] among the steps done, if it is one. *)
Fixpoint state_of (done : list (string * step_state)) (n : string)
  : option step_state :=
  match done with
  | [] => None
  | (i, st) :: done' => if String.eqb i n then Some st else state_of done' n
  end.

Definition succeeded (done : list (string * step_state)) (n : string)
  : bool :=
  match state_of done n with
  | Some Succeeded => true
  | _ => false
  end.

(** Modelled from the spec: [WorkflowRunner.run] with a pool of one worker
    (sections 4.4, 4.5 and 5).  The steps run in order.  A step runs only
    when all the steps it depends on have succeeded; when one of them
    failed, was skipped or was filtered out, the step is skipped.  A dry
    run describes a step instead of calling the backend.  The first
    failing step stops the run and the steps after it are skipped; an
    unexpected fault unwinds. *)
Fixpoint run_from (c : run_config) (backend : resolved_step -> backend_answer)
  (done : list (string * step_state)) (wf : list resolved_step)
  : @call (list (string * step_state)) :=
  match wf with
  | [] => ([], inl [])
  | st :: wf' =>
      let i := resolved_id st in
      let continue (state : step_state) (ef0 : list effect) :=
        match run_from c backend ((i, state) :: done) wf' with
        | (ef, inl res) => (ef0 ++ ef, inl ((i, state) :: res))
        | (ef, inr e) => (ef0 ++ ef, inr e)
        end in
      if negb (forallb (succeeded done) (resolved_needs st))
      then continue Skipped []
      else if cfg_dry_run c
      then continue Succeeded [Log STEP_INFO (describe st)]
      else
        match backend st with
        | Exit Z0 => continue Succeeded [Backend i]
        | Exit code =>
            ([Backend i],
             inl ((i, Failed code)
                    :: map (fun s => (resolved_id s, Skipped)) wf'))
        | Fault e => ([Backend i], inr (Exc e))
        end
  end.

Definition run_steps (c : run_config)
  (backend : resolved_step -> backend_answer) (wf : list resolved_step)
  : @call (list (string * step_state)) :=
  run_from c backend [] wf.

(** The collaborators of the specification around [cli]. *)
Definition system (declared : string -> list declared_step)
  (read : string -> config_file) (default_engine default_resman : string)
  (backend : resolved_step -> backend_answer)
  : @collaborators (list resolved_step) run_config
                   (list (string * step_state)) :=
  mkCollaborators
    (parse declared)
    (load read default_engine default_resman)
    (fun _ => ([], inl tt))
    (fun _ => ([], inl tt))
    (fun c wf => run_steps c backend wf)
    (fun _ _ => ([], inl false)).

(** The configurations handed to the runner in a trace. *)
Fixpoint runner_configs {workflow config : Type}
  (t : list (@event workflow config)) : list config :=
  match t with
  | [] => []
  | EvRunner c :: t' => c :: runner_configs t'
  | _ :: t' => runner_configs t'
  end.

(** A workflow of three steps without placeholders, a configuration file
    naming an engine and a resource manager, a backend where every step
    exits with 0. *)
Definition three_steps : list declared_step :=
  [mkStep "A" [Lit "alpine"; Lit "ls"] [];
   mkStep "B" [Lit "alpine"; Lit "pwd"] [];
   mkStep "C" [Lit "alpine"; Lit "date"] []].






Definition sample_system
  : @collaborators (list resolved_step) run_config
                   (list (string * step_state)) :=
  system (fun _ => three_steps)
         (fun _ => mkConfigFile (Some "singularity") (Some "slurm"))
         "docker" "host"
         (fun _ => Exit 0).

(** [popper run -f wf.yml], with the given STEP, [--skip] and
    [--substitution] values, [--allow-loose], [-e] and [-c]. *)
Definition system_args (target : option string)
  (skipped subs : list string) (loose : bool)
  (eng config_path : option string) : cli_args string :=
  mkArgs target "wf.yml" false false None false false eng None skipped
         false false subs loose "/ws" config_path.

(** The steps a collaborator hands to the backend. *)
Fixpoint backend_ids (ef : list effect) : list string :=
  match ef with
  | [] => []
  | Backend i :: ef' => i :: backend_ids ef'
  | Log _ _ :: ef' => backend_ids ef'
  end.

(** The parser is not called in the trace. *)
Definition no_parse {workflow config : Type}
  (t : list (@event workflow config)) : Prop :=
  Forall (fun ev => match ev with
                    | EvParse _ _ _ _ _ => False
                    | _ => True
                    end) t.

(** * The command line and the order of the calls *)

(** The choices of [--engine] and of [--resource-manager]. *)
Definition engine_choices : list string :=
  ["docker"; "singularity"; "vagrant"].

Definition resource_manager_choices : list string :=
  ["host"; "slurm"].

(** [click.Choice], case sensitive: an option that is given has one of the
    values of its choice. *)
Definition in_choices (choices : list string) (v : option string) : bool :=
  match v with
  | None => true
  | Some x => existsb (String.eqb x) choices
  end.

Definition click_accepts (o : cli_args (option string)) : bool :=
  in_choices engine_choices (engine o)
  && in_choices resource_manager_choices (resource_manager o).

(** The command line as click handles it: a usage error, and [cli] is not
    called, or the run of [cli]. *)
Definition run_command {workflow config run_result : Type}
  (w : @collaborators workflow config run_result) (env : process_env)
  (o : cli_args (option string)) (s0 : sink)
  : option (list (@event workflow config) * sink * (unit + py_exc)) :=
  if click_accepts o then Some (main w env o s0) else None.

(** The calls of the collaborators, without what they do meanwhile. *)
Inductive stage := Parse | Load | Construct | Enter | Run | Release.

Definition stage_of {workflow config : Type} (ev : @event workflow config)
  : option stage :=
  match ev with
  | EvParse _ _ _ _ _ => Some Parse
  | EvLoad _ _ _ _ _ _ _ _ => Some Load
  | EvRunner _ => Some Construct
  | EvEnter => Some Enter
  | EvRun _ => Some Run
  | EvExit _ => Some Release
  | EvLog _ _ _ | EvAddLog _ | EvBackend _ => None
  end.

Fixpoint lifecycle {workflow config : Type}
  (t : list (@event workflow config)) : list stage :=
  match t with
  | [] => []
  | ev :: t' =>
      match stage_of ev with
      | Some st => st :: lifecycle t'
      | None => lifecycle t'
      end
  end.

(** The calls up to the first that raises: none when the filters conflict;
    else the parser; the loader if the parser returns; the constructor if
    the loader returns; [__enter__] if the constructor returns; [run] and
    [__exit__] if [__enter__] returns. *)
Definition calls_until_raise {workflow config run_result : Type}
  (w : @collaborators workflow config run_result) (a : cli_args string)
  : list stage :=
  if truthy_tuple (skip a) && truthy (step a) then []
  else
    match snd (WorkflowParser_parse w (wfile a) (step a) (skip a)
                                    (substitution a) (allow_loose a)) with
    | inr _ => [Parse]
    | inl _ =>
        match snd (ConfigLoader_load w (engine a) (resource_manager a)
                                     (conf a) (reuse a) (dry_run a)
                                     (skip_pull a) (skip_clone a)
                                     (workspace a)) with
        | inr _ => [Parse; Load]
        | inl c =>
            match snd (WorkflowRunner_init w c) with
            | inr _ => [Parse; Load; Construct]
            | inl _ =>
                match snd (WorkflowRunner_enter w c) with
                | inr _ => [Parse; Load; Construct; Enter]
                | inl _ => [Parse; Load; Construct; Enter; Run; Release]
                end
            end
        end
    end.

(** The parser and the loader are called with the parameters of the
    command, each under the name of its keyword argument. *)
Definition wired {workflow config : Type} (a : cli_args string)
  (t : list (@event workflow config)) : Prop :=
  Forall (fun ev =>
            match ev with
            | EvParse f t sk su l =>
                f = wfile a /\ t = step a /\ sk = skip a
                /\ su = substitution a /\ l = allow_loose a
            | EvLoad en rn cf r d sp sc wd =>
                en = engine a /\ rn = resource_manager a /\ cf = conf a
                /\ r = reuse a /\ d = dry_run a /\ sp = skip_pull a
                /\ sc = skip_clone a /\ wd = workspace a
            | _ => True
            end) t.

(** The loader is called with names among the choices, or with none. *)
Definition loads_choices {workflow config : Type}
  (t : list (@event workflow config)) : Prop :=
  Forall (fun ev =>
            match ev with
            | EvLoad en rn _ _ _ _ _ _ =>
                (en = None \/ exists x, en = Some x /\ In x engine_choices)
                /\ (rn = None
                    \/ exists x, rn = Some x
                                 /\ In x resource_manager_choices)
            | _ => True
            end) t.

(** Collaborators that exchange no value and log nothing; each call ends
    as its parameter says. *)
Definition collaborators_ending (p l i e r : unit + py_exc)
  (x : bool + py_exc) : @collaborators unit unit unit :=
  mkCollaborators
    (fun _ _ _ _ _ => ([], p))
    (fun _ _ _ _ _ _ _ _ => ([], l))
    (fun _ => ([], i))
    (fun _ => ([], e))
    (fun _ _ => ([], r))
    (fun _ _ => ([], x)).

Definition oops : py_exc :=
  Exc (mkException "ValueError" "oops"
         ("Traceback (most recent call last):" ++ newline
          ++ "ValueError: oops" ++ newline)%string).

(** [popper run -f wf.yml --log-file f], with the given STEP and [--skip]
    values. *)
Definition logged_args (f : string) (target : option string)
  (skipped : list string) : cli_args string :=
  mkArgs target "wf.yml" false false (Some f) false false None None skipped
         false false [] false "/ws" None.

(** [popper run -f wf.yml], with the given [-e] and [-r] values. *)
Definition engine_args (eng res : option string) : cli_args (option string) :=
  mkArgs None "wf.yml" false false None false false eng res [] false false
         [] false None None.

(** * Properties of the command *)

Ltac open_run := unfold trace_of, sink_of in *; simpl in *.

Ltac flatten_trace :=
  repeat first [rewrite <- app_assoc | rewrite <- app_comm_cons].

Section CommandFacts.

Context {workflow config run_result : Type}.

Abbreviation collaborators := (@collaborators workflow config run_result).
Abbreviation event := (@event workflow config).

Implicit Types (w : collaborators) (a : cli_args string) (s : sink).

Lemma setup_logging_spec a s0 :
  @setup_logging workflow config a s0
  = (logfile_events a, setup_sink a s0, inl tt).
Proof.
  unfold setup_logging, setup_sink, logfile_events, bind, log_setLevel,
    set_msg_prefix, logging_add_log, ret.
  destruct (dry_run a); destruct (log_file a) as [f|]; simpl;
    try destruct (negb (f =? "")%string); reflexivity.
Qed.

Lemma check_filters_pass a s :
  truthy_tuple (skip a) && truthy (step a) = false ->
  @check_filters workflow config a s = ([], s, inl tt).
Proof. intros H. unfold check_filters. rewrite H. reflexivity. Qed.

Lemma check_filters_fail a s :
  truthy_tuple (skip a) && truthy (step a) = true ->
  @check_filters workflow config a s
  = ([EvLog s ERROR conflicting_filters], s, inr (SystemExit 1)).
Proof. intros H. unfold check_filters. rewrite H. reflexivity. Qed.

Lemma guarded_run_spec w c wf s :
  guarded_run w c wf s
  = (EvRun wf :: map (observe s) (fst (WorkflowRunner_run w c wf))
       ++ handler_events s (WorkflowRunner_run w c wf),
     s, body_outcome (WorkflowRunner_run w c wf)).
Proof.
  unfold guarded_run, try_except_Exception, bind, invoke, ret, log_debug,
    log_fail, handler_events, body_outcome.
  destruct (WorkflowRunner_run w c wf) as [ef [v | [k | | | e]]]; simpl;
    rewrite ?app_nil_r; reflexivity.
Qed.

Lemma with_runner_spec w c wf s ie ee :
  WorkflowRunner_init w c = (ie, inl tt) ->
  WorkflowRunner_enter w c = (ee, inl tt) ->
  let r := WorkflowRunner_run w c wf in
  let x := WorkflowRunner_exit w c (exit_argument (body_outcome r)) in
  with_runner w c wf s
  = (EvRunner c :: map (observe s) ie
       ++ EvEnter :: map (observe s) ee
       ++ (EvRun wf :: map (observe s) (fst r) ++ handler_events s r)
       ++ EvExit (exit_argument (body_outcome r)) :: map (observe s) (fst x),
     s, with_outcome (body_outcome r) (snd x)).
Proof.
  intros Hi He r x. unfold with_runner, bind, with_exit.
  unfold invoke at 1 2. rewrite Hi, He. simpl.
  rewrite guarded_run_spec. fold r.
  destruct (body_outcome r) as [[] | e] eqn:Hb; simpl in x |- *;
    unfold invoke; fold x; destruct (snd x) as [[|] | e']; simpl;
    rewrite ?app_nil_r, <- ?app_assoc; simpl; reflexivity.
Qed.

(** ** Events after the logging setup *)

Section Keeps.

Variable P : sink -> event -> Prop.

Lemma keeps_ret {A : Type} (x : A) : keeps P (ret x).
Proof. intros s. split; [constructor | reflexivity]. Qed.

Lemma keeps_bind {A B : Type} (m : M A) (k : A -> M B) :
  keeps P m -> (forall x, keeps P (k x)) -> keeps P (bind m k).
Proof.
  intros Hm Hk s. unfold bind. destruct (Hm s) as [Ht Hs].
  destruct (m s) as [[t s'] [x | e]]; open_run; subst s'.
  - destruct (Hk x s) as [Ht' Hs'].
    destruct (k x s) as [[t' s''] r]; open_run.
    split; [apply Forall_app; split; assumption | congruence].
  - split; [assumption | reflexivity].
Qed.

Lemma keeps_invoke {A : Type} (ev : event) (c : call A) :
  (forall s, P s ev) ->
  (forall s ef, P s (observe s ef)) ->
  keeps P (invoke ev c).
Proof.
  intros Hev Hef s. unfold invoke. split; [| reflexivity]. simpl.
  constructor; [apply Hev |].
  apply Forall_forall. intros x Hx. apply in_map_iff in Hx.
  destruct Hx as [ef [<- _]]. apply Hef.
Qed.

Lemma keeps_try {A : Type} (body : M A) (h : exception -> M A) :
  keeps P body -> (forall e, keeps P (h e)) ->
  keeps P (try_except_Exception body h).
Proof.
  intros Hb Hh s. unfold try_except_Exception. destruct (Hb s) as [Ht Hs].
  destruct (body s) as [[t s'] [x | x]]; open_run; subst s'.
  - split; [assumption | reflexivity].
  - destruct (as_Exception x) as [e |]; [| split; [assumption | reflexivity]].
    destruct (Hh e s) as [Ht' Hs'].
    destruct (h e s) as [[t' s''] r]; open_run.
    split; [apply Forall_app; split; assumption | congruence].
Qed.

Lemma keeps_with_exit {A : Type} (ex : option py_exc -> M bool)
  (body : M A) :
  keeps P body -> (forall o, keeps P (ex o)) -> keeps P (with_exit ex body).
Proof.
  intros Hb Hx s. unfold with_exit. destruct (Hb s) as [Ht Hs].
  destruct (body s) as [[t s'] [x | e]]; open_run; subst s'.
  - destruct (Hx None s) as [Ht' Hs'].
    destruct (ex None s) as [[t' s''] [b | e']]; open_run;
      (split; [apply Forall_app; split; assumption | congruence]).
  - destruct (Hx (Some e) s) as [Ht' Hs'].
    destruct (ex (Some e) s) as [[t' s''] [[|] | e']]; open_run;
      (split; [apply Forall_app; split; assumption | congruence]).
Qed.

End Keeps.

Lemma keeps_run_workflow w a : keeps (after_setup a) (run_workflow w a).
Proof.
  assert (Hobs : forall s ef, @after_setup workflow config a s (observe s ef))
    by (intros s [l m | i]; simpl; trivial).
  unfold run_workflow. apply keeps_bind.
  { intros s. unfold check_filters.
    destruct (truthy_tuple (skip a) && truthy (step a)); simpl.
    - split; [repeat constructor | reflexivity].
    - split; [constructor | reflexivity]. }
  intros _. apply keeps_bind.
  { apply keeps_invoke; [intros s; simpl; tauto | exact Hobs]. }
  intros wf. apply keeps_bind.
  { apply keeps_invoke; [intros s; simpl; tauto | exact Hobs]. }
  intros c. unfold with_runner.
  apply keeps_bind; [apply keeps_invoke; simpl; trivial |].
  intros _. apply keeps_bind; [apply keeps_invoke; simpl; trivial |].
  intros _. apply keeps_with_exit.
  - unfold guarded_run. apply keeps_try.
    + apply keeps_bind; [apply keeps_invoke; simpl; trivial |].
      intros _. apply keeps_ret.
    + intros e. apply keeps_bind.
      * intros s. split; [repeat constructor | reflexivity].
      * intros _ s. split; [repeat constructor | reflexivity].
  - intros o. apply keeps_invoke; simpl; trivial.
Qed.

(** [cli] attaches the log file, then runs the workflow in the sink that
    [setup_logging] leaves. *)
Lemma cli_after_setup w a s0 :
  cli w a s0
  = (logfile_events a ++ trace_of (run_workflow w a (setup_sink a s0)),
     sink_of (run_workflow w a (setup_sink a s0)),
     outcome_of (run_workflow w a (setup_sink a s0))).
Proof.
  unfold cli, bind. rewrite setup_logging_spec.
  destruct (run_workflow w a (setup_sink a s0)) as [[t s'] r]. reflexivity.
Qed.

Lemma cli_shape w a s0 :
  exists t,
    trace_of (cli w a s0) = logfile_events a ++ t
    /\ Forall (after_setup a (setup_sink a s0)) t
    /\ sink_of (cli w a s0) = setup_sink a s0.
Proof.
  rewrite cli_after_setup.
  destruct (keeps_run_workflow w a (setup_sink a s0)) as [Ht Hs].
  exists (trace_of (run_workflow w a (setup_sink a s0))). auto.
Qed.

Lemma cli_records w a s0 s lvl msg :
  In (EvLog s lvl msg) (trace_of (cli w a s0)) -> s = setup_sink a s0.
Proof.
  destruct (cli_shape w a s0) as [t [Ht [Hall _]]]. rewrite Ht.
  intros Hin. apply in_app_or in Hin. destruct Hin as [Hin | Hin].
  - unfold logfile_events in Hin. destruct (log_file a) as [f |];
      [destruct (truthy (Some f)) |]; simpl in Hin;
      intuition discriminate.
  - rewrite Forall_forall in Hall. exact (Hall _ Hin).
Qed.

Lemma cli_records_under w a s0 :
  records (fun s _ _ => s = setup_sink a s0) (trace_of (cli w a s0)).
Proof.
  unfold records. apply Forall_forall. intros [s l m | | | | | | | |] Hin;
    trivial.
  exact (cli_records _ _ _ _ _ _ Hin).
Qed.

Lemma records_impl (P Q : sink -> level -> string -> Prop) (t : list event) :
  (forall s l m, P s l m -> Q s l m) -> records P t -> records Q t.
Proof.
  intros H. unfold records. apply Forall_impl.
  intros [s l m | | | | | | | |]; auto.
Qed.

(** ** The run, case by case *)

Lemma run_workflow_conflict w a s :
  truthy_tuple (skip a) && truthy (step a) = true ->
  run_workflow w a s
  = ([EvLog s ERROR conflicting_filters], s, inr (SystemExit 1)).
Proof.
  intros H. unfold run_workflow. unfold bind at 1.
  rewrite (check_filters_fail _ _ H). reflexivity.
Qed.

Lemma run_workflow_runner w a s wf c pe le :
  truthy_tuple (skip a) && truthy (step a) = false ->
  WorkflowParser_parse w (wfile a) (step a) (skip a) (substitution a)
                       (allow_loose a) = (pe, inl wf) ->
  ConfigLoader_load w (engine a) (resource_manager a) (conf a) (reuse a)
                    (dry_run a) (skip_pull a) (skip_clone a) (workspace a)
  = (le, inl c) ->
  run_workflow w a s
  = (EvParse (wfile a) (step a) (skip a) (substitution a) (allow_loose a)
       :: map (observe s) pe
       ++ EvLoad (engine a) (resource_manager a) (conf a) (reuse a)
                 (dry_run a) (skip_pull a) (skip_clone a) (workspace a)
       :: map (observe s) le
       ++ trace_of (with_runner w c wf s),
     sink_of (with_runner w c wf s),
     outcome_of (with_runner w c wf s)).
Proof.
  intros Hf Hp Hl. unfold run_workflow. unfold bind at 1.
  rewrite (check_filters_pass _ _ Hf). unfold bind at 1.
  unfold invoke at 1. rewrite Hp. cbn [fst snd app]. unfold bind at 1.
  unfold invoke at 1. rewrite Hl. cbn [fst snd app].
  destruct (with_runner w c wf s) as [[t s'] r]. unfold trace_of, sink_of,
    outcome_of. reflexivity.
Qed.

Lemma run_workflow_parse_fails w a s pe e :
  truthy_tuple (skip a) && truthy (step a) = false ->
  WorkflowParser_parse w (wfile a) (step a) (skip a) (substitution a)
                       (allow_loose a) = (pe, inr e) ->
  run_workflow w a s
  = (EvParse (wfile a) (step a) (skip a) (substitution a) (allow_loose a)
       :: map (observe s) pe,
     s, inr e).
Proof.
  intros Hf Hp. unfold run_workflow. unfold bind at 1.
  rewrite (check_filters_pass _ _ Hf). unfold bind at 1.
  unfold invoke at 1. rewrite Hp. reflexivity.
Qed.

Lemma run_workflow_load_fails w a s wf pe le e :
  truthy_tuple (skip a) && truthy (step a) = false ->
  WorkflowParser_parse w (wfile a) (step a) (skip a) (substitution a)
                       (allow_loose a) = (pe, inl wf) ->
  ConfigLoader_load w (engine a) (resource_manager a) (conf a) (reuse a)
                    (dry_run a) (skip_pull a) (skip_clone a) (workspace a)
  = (le, inr e) ->
  run_workflow w a s
  = (EvParse (wfile a) (step a) (skip a) (substitution a) (allow_loose a)
       :: map (observe s) pe
       ++ EvLoad (engine a) (resource_manager a) (conf a) (reuse a)
                 (dry_run a) (skip_pull a) (skip_clone a) (workspace a)
       :: map (observe s) le,
     s, inr e).
Proof.
  intros Hf Hp Hl. unfold run_workflow. unfold bind at 1.
  rewrite (check_filters_pass _ _ Hf). unfold bind at 1.
  unfold invoke at 1. rewrite Hp. cbn [fst snd app]. unfold bind at 1.
  unfold invoke at 1. rewrite Hl. reflexivity.
Qed.

Lemma cli_runner w a s0 wf c pe le ie ee :
  truthy_tuple (skip a) && truthy (step a) = false ->
  WorkflowParser_parse w (wfile a) (step a) (skip a) (substitution a)
                       (allow_loose a) = (pe, inl wf) ->
  ConfigLoader_load w (engine a) (resource_manager a) (conf a) (reuse a)
                    (dry_run a) (skip_pull a) (skip_clone a) (workspace a)
  = (le, inl c) ->
  WorkflowRunner_init w c = (ie, inl tt) ->
  WorkflowRunner_enter w c = (ee, inl tt) ->
  let s := setup_sink a s0 in
  let r := WorkflowRunner_run w c wf in
  let x := WorkflowRunner_exit w c (exit_argument (body_outcome r)) in
  cli w a s0
  = ((logfile_events a
        ++ EvParse (wfile a) (step a) (skip a) (substitution a)
                   (allow_loose a)
        :: map (observe s) pe
        ++ EvLoad (engine a) (resource_manager a) (conf a) (reuse a)
                  (dry_run a) (skip_pull a) (skip_clone a) (workspace a)
        :: map (observe s) le
        ++ EvRunner c :: map (observe s) ie
        ++ EvEnter :: map (observe s) ee)
       ++ EvRun wf
       :: (map (observe s) (fst r) ++ handler_events s r)
       ++ EvExit (exit_argument (body_outcome r))
       :: map (observe s) (fst x),
     s, with_outcome (body_outcome r) (snd x)).
Proof.
  intros Hf Hp Hl Hi He s r x. rewrite cli_after_setup. fold s.
  rewrite (run_workflow_runner _ _ _ _ _ _ _ Hf Hp Hl).
  rewrite (with_runner_spec _ _ _ _ _ _ Hi He). fold r. fold x.
  unfold trace_of, sink_of, outcome_of. cbn [fst snd].
  f_equal. f_equal. flatten_trace. reflexivity.
Qed.

(** ** The logging level *)

(** C9: when [--quiet] and [--debug] are both given, debug wins.  The level
    of the sink after the command, and the level every record of the run is
    written under, is DEBUG if debug, else INFO if quiet, else STEP_INFO. *)
Theorem debug_overrides_quiet w a s0 :
  let lvl := if debug a then DEBUG else if quiet a then INFO else STEP_INFO in
  sink_level (sink_of (cli w a s0)) = lvl
  /\ records (fun s _ _ => sink_level s = lvl) (trace_of (cli w a s0)).
Proof.
  assert (Hl : sink_level (setup_sink a s0)
               = if debug a then DEBUG else if quiet a then INFO
                 else STEP_INFO).
  { unfold setup_sink, cli_level. simpl.
    destruct (debug a), (quiet a); reflexivity. }
  split.
  - destruct (cli_shape w a s0) as [t [_ [_ Hs]]]. rewrite Hs. exact Hl.
  - eapply records_impl; [| apply cli_records_under].
    intros s _ _ ->. exact Hl.
Qed.

(** C6: with [--quiet] and without [--debug] the threshold of the sink is
    INFO instead of the default STEP_INFO: step-level records no longer
    pass, records at the info, warning and error levels still do.  The
    value popper.log gives STEP_INFO lies between DEBUG and INFO. *)
Theorem quiet_raises_threshold (step_info : Z) w a a' s0 :
  (10 < step_info < 20)%Z ->
  quiet a = true -> debug a = false ->
  quiet a' = false -> debug a' = false ->
  let s := sink_of (cli w a s0) in
  let s' := sink_of (cli w a' s0) in
  (sink_level s' = STEP_INFO /\ isEnabledFor step_info s' STEP_INFO = true)
  /\ sink_level s = INFO
  /\ records (fun r _ _ => r = s) (trace_of (cli w a s0))
  /\ isEnabledFor step_info s STEP_INFO = false
  /\ isEnabledFor step_info s INFO = true
  /\ isEnabledFor step_info s WARNING = true
  /\ isEnabledFor step_info s ERROR = true.
Proof.
  intros Hsi Hq Hd Hq' Hd' s s'.
  destruct (cli_shape w a s0) as [t [_ [_ Hs]]].
  destruct (cli_shape w a' s0) as [t' [_ [_ Hs']]].
  assert (Hl : sink_level s = INFO).
  { subst s. rewrite Hs. unfold setup_sink, cli_level. simpl.
    rewrite Hq, Hd. reflexivity. }
  assert (Hl' : sink_level s' = STEP_INFO).
  { subst s'. rewrite Hs'. unfold setup_sink, cli_level. simpl.
    rewrite Hq', Hd'. reflexivity. }
  unfold isEnabledFor. rewrite Hl, Hl'. simpl.
  repeat split; try reflexivity; try (apply Z.leb_le; lia).
  - eapply records_impl; [| apply cli_records_under].
    intros r _ _ ->. subst s. symmetry. exact Hs.
  - apply Z.leb_gt. lia.
Qed.

(** ** The dry-run marker *)


(** ** Conflicting filters *)

(** C1 (amended): when STEP is given and not empty and the skip-list is not
    empty, the command writes the conflict at error level and aborts with
    status 1; nothing but sink events happens: the parser, the loader, the
    runner and the backend are never called. *)
Theorem conflicting_filters_rejected w a s0 :
  truthy (step a) = true ->
  skip a <> [] ->
  outcome_of (cli w a s0) = inr (SystemExit 1)
  /\ trace_of (cli w a s0)
     = logfile_events a
       ++ [EvLog (setup_sink a s0) ERROR conflicting_filters]
  /\ collaborator_calls (trace_of (cli w a s0)) = []
  /\ executed_steps (trace_of (cli w a s0)) = [].
Proof.
  intros Hs Hk.
  assert (Hc : truthy_tuple (skip a) && truthy (step a) = true).
  { rewrite Hs. destruct (skip a); [contradiction | reflexivity]. }
  rewrite cli_after_setup, (run_workflow_conflict _ _ _ Hc).
  unfold outcome_of, trace_of. cbn [fst snd].
  repeat split; unfold logfile_events;
    destruct (log_file a) as [f |]; [destruct (truthy (Some f)) | |
                                     destruct (truthy (Some f)) |];
    reflexivity.
Qed.

(** ** The runner's lifecycle *)

(** C2: once the runner is entered, whatever [run] does (it returns, it
    raises an [Exception], it raises anything else), [__exit__] is called
    after the call of [run], with the exception that leaves the [try]
    statement, or with none; between the two calls there are only the
    effects of [run] and the records of the handler, and after [__exit__]
    only its own effects. *)
Theorem runner_released_on_every_exit_path w a s0 wf c pe le ie ee :
  truthy_tuple (skip a) && truthy (step a) = false ->
  WorkflowParser_parse w (wfile a) (step a) (skip a) (substitution a)
                       (allow_loose a) = (pe, inl wf) ->
  ConfigLoader_load w (engine a) (resource_manager a) (conf a) (reuse a)
                    (dry_run a) (skip_pull a) (skip_clone a) (workspace a)
  = (le, inl c) ->
  WorkflowRunner_init w c = (ie, inl tt) ->
  WorkflowRunner_enter w c = (ee, inl tt) ->
  let s := setup_sink a s0 in
  let r := WorkflowRunner_run w c wf in
  let released :=
    match snd r with
    | inl _ => None
    | inr (Exc _) => Some (SystemExit 1)
    | inr x => Some x
    end in
  exists pre,
    trace_of (cli w a s0)
    = pre ++ EvRun wf
          :: (map (observe s) (fst r) ++ handler_events s r)
          ++ EvExit released
          :: map (observe s) (fst (WorkflowRunner_exit w c released)).
Proof.
  intros Hf Hp Hl Hi He s r released.
  rewrite (cli_runner _ _ _ _ _ _ _ _ _ Hf Hp Hl Hi He). fold s r.
  assert (Hrel : exit_argument (body_outcome r) = released).
  { unfold released, body_outcome. destruct (snd r) as [v | [k | | | e]];
      reflexivity. }
  rewrite Hrel. unfold trace_of. cbn [fst].
  eexists. reflexivity.
Qed.

(** C3 (amended): an exception raised by [run] whose class derives from
    [Exception] is caught.  Its traceback goes to one record at the debug
    level, which passes only with [--debug]; its message goes to one record
    at the error level, which always passes; the runner is released with
    the abort of [log.fail] rather than with the fault, and the abort is
    what the command ends with unless [__exit__] decides otherwise. *)
Theorem run_exception_summarized (step_info : Z) w a s0 wf c pe le ie ee re e :
  (10 < step_info < 20)%Z ->
  truthy_tuple (skip a) && truthy (step a) = false ->
  WorkflowParser_parse w (wfile a) (step a) (skip a) (substitution a)
                       (allow_loose a) = (pe, inl wf) ->
  ConfigLoader_load w (engine a) (resource_manager a) (conf a) (reuse a)
                    (dry_run a) (skip_pull a) (skip_clone a) (workspace a)
  = (le, inl c) ->
  WorkflowRunner_init w c = (ie, inl tt) ->
  WorkflowRunner_enter w c = (ee, inl tt) ->
  WorkflowRunner_run w c wf = (re, inr (Exc e)) ->
  let s := setup_sink a s0 in
  let x := WorkflowRunner_exit w c (Some (SystemExit 1)) in
  (exists pre,
      trace_of (cli w a s0)
      = pre ++ EvRun wf :: map (observe s) re
            ++ [EvLog s DEBUG (format_exc e);
                EvLog s ERROR (exc_str e);
                EvExit (Some (SystemExit 1))]
            ++ map (observe s) (fst x))
  /\ isEnabledFor step_info s DEBUG = debug a
  /\ isEnabledFor step_info s ERROR = true
  /\ outcome_of (cli w a s0)
     = match snd x with
       | inl false => inr (SystemExit 1)
       | inl true => inl tt
       | inr e' => inr e'
       end.
Proof.
  intros Hsi Hf Hp Hl Hi He Hr s x.
  rewrite (cli_runner _ _ _ _ _ _ _ _ _ Hf Hp Hl Hi He). fold s.
  unfold handler_events, body_outcome. rewrite Hr. cbn [fst snd].
  cbn [exit_argument]. fold x. unfold trace_of, outcome_of. cbn [fst snd].
  split; [| split; [| split]].
  - eexists. f_equal. f_equal. flatten_trace. reflexivity.
  - unfold isEnabledFor, s, setup_sink, cli_level. simpl.
    destruct (debug a), (quiet a); simpl;
      first [apply Z.leb_le; lia | apply Z.leb_gt; lia].
  - unfold isEnabledFor, s, setup_sink, cli_level. simpl.
    destruct (debug a), (quiet a); simpl; apply Z.leb_le; lia.
  - destruct (snd x) as [[|] | e']; reflexivity.
Qed.

(** ** Defaults of the options *)

(** C10 (amended): without [--workspace], every call of the loader passes
    the working directory the process had when the command's module was
    loaded, and the loader is called with it as soon as the parser returns;
    without [--log-file] no log file is attached and the sink keeps the
    files it had.  Each half holds whatever the other option is. *)
Theorem workspace_and_log_file_defaults w env o s0 :
  (workspace o = None ->
   loads_workspace (cwd_at_import env) (trace_of (main w env o s0))
   /\ (truthy_tuple (skip o) && truthy (step o) = false ->
       forall pe wf,
         WorkflowParser_parse w (wfile o) (step o) (skip o) (substitution o)
                              (allow_loose o) = (pe, inl wf) ->
         In (EvLoad (engine o) (resource_manager o) (conf o) (reuse o)
                    (dry_run o) (skip_pull o) (skip_clone o)
                    (cwd_at_import env))
            (trace_of (main w env o s0))))
  /\ (log_file o = None ->
      no_log_file (trace_of (main w env o s0))
      /\ log_files (sink_of (main w env o s0)) = log_files s0).
Proof.
  unfold main.
  destruct (cli_shape w (click_params env o) s0) as [t [Ht [Hall Hs]]].
  split.
  - intros Hw. split.
    + rewrite Ht. unfold loads_workspace. apply Forall_app. split.
      * unfold logfile_events.
        destruct (log_file (click_params env o)) as [f |];
          [destruct (truthy (Some f)) |]; repeat constructor.
      * eapply Forall_impl; [| exact Hall].
        intros [| | | en rn cf r d sp sc wd | | | | |]; simpl; trivial.
        rewrite Hw. unfold workspace_default. tauto.
    + intros Hf pe wf Hp. rewrite cli_after_setup. unfold trace_of at 1.
      cbn [fst]. apply in_or_app. right.
      assert (Hwd : workspace (click_params env o) = cwd_at_import env).
      { simpl. rewrite Hw. reflexivity. }
      destruct (ConfigLoader_load w (engine o) (resource_manager o) (conf o)
                  (reuse o) (dry_run o) (skip_pull o) (skip_clone o)
                  (cwd_at_import env)) as [le [c | e]] eqn:Hl.
      * rewrite (run_workflow_runner w (click_params env o) _ wf c pe le);
          [| exact Hf | exact Hp | simpl; rewrite Hw; exact Hl].
        unfold trace_of. cbn [fst]. right. apply in_or_app. right.
        rewrite Hwd. left. reflexivity.
      * rewrite (run_workflow_load_fails w (click_params env o) _ wf pe le e);
          [| exact Hf | exact Hp | simpl; rewrite Hw; exact Hl].
        unfold trace_of. cbn [fst]. right. apply in_or_app. right.
        rewrite Hwd. left. reflexivity.
  - intros Hf.
    assert (Hnil : @logfile_events workflow config (click_params env o) = []).
    { unfold logfile_events. simpl. rewrite Hf. reflexivity. }
    rewrite Ht, Hnil, Hs. simpl. split.
    + unfold no_log_file. eapply Forall_impl; [| exact Hall].
      intros [| | | | | | | |]; simpl; trivial.
    + rewrite Hf. reflexivity.
Qed.

End CommandFacts.

(** * Properties of the command among the specification's collaborators *)

Lemma executed_steps_app {workflow config : Type}
  (t1 t2 : list (@event workflow config)) :
  executed_steps (t1 ++ t2) = executed_steps t1 ++ executed_steps t2.
Proof.
  induction t1 as [| ev t1 IH]; [reflexivity |].
  destruct ev; simpl; rewrite IH; reflexivity.
Qed.

Lemma executed_steps_observe {workflow config : Type} s (ef : list effect) :
  executed_steps (map (@observe workflow config s) ef) = backend_ids ef.
Proof.
  induction ef as [| [l m | i] ef IH]; simpl; congruence.
Qed.

Lemma runner_configs_app {workflow config : Type}
  (t1 t2 : list (@event workflow config)) :
  runner_configs (t1 ++ t2) = runner_configs t1 ++ runner_configs t2.
Proof.
  induction t1 as [| ev t1 IH]; [reflexivity |].
  destruct ev; simpl; rewrite IH; reflexivity.
Qed.

Lemma logfile_events_quiet {workflow config : Type} (a : cli_args string) :
  executed_steps (@logfile_events workflow config a) = []
  /\ runner_configs (@logfile_events workflow config a) = []
  /\ no_parse (@logfile_events workflow config a).
Proof.
  unfold logfile_events, no_parse.
  destruct (log_file a) as [f |]; [destruct (truthy (Some f)) |]; simpl;
    repeat split; repeat constructor.
Qed.





(** ** Subsequences *)






(** ** The execution order and the plan *)







Section Runner.

Variables (c : run_config) (backend : resolved_step -> backend_answer).



End Runner.

Section System.

Variables (declared : string -> list declared_step)
          (read : string -> config_file)
          (default_engine default_resman : string)
          (backend : resolved_step -> backend_answer).

Implicit Types (a : cli_args string).

Local Abbreviation w := (system declared read default_engine default_resman backend).

Local Abbreviation parsed a :=
  (parse declared (wfile a) (step a) (skip a) (substitution a)
         (allow_loose a)).

Local Abbreviation loaded a :=
  (load read default_engine default_resman (engine a) (resource_manager a)
        (conf a) (reuse a) (dry_run a) (skip_pull a) (skip_clone a)
        (workspace a)).

Lemma parse_silent file target skipped subs loose :
  fst (parse declared file target skipped subs loose) = [].
Proof.
  unfold parse.
  destruct (if loose then [] else _) as [| k ks]; [| reflexivity].
  destruct (resolve_all _ _); reflexivity.
Qed.

(** The three ways the command goes among these collaborators. *)
Lemma system_conflict a s0 :
  truthy_tuple (skip a) && truthy (step a) = true ->
  cli w a s0
  = (logfile_events a ++ [EvLog (setup_sink a s0) ERROR conflicting_filters],
     setup_sink a s0, inr (SystemExit 1)).
Proof.
  intros H. rewrite cli_after_setup, (run_workflow_conflict _ _ _ H).
  reflexivity.
Qed.

Lemma system_parse_fails a s0 e :
  truthy_tuple (skip a) && truthy (step a) = false ->
  snd (parsed a) = inr e ->
  cli w a s0
  = (logfile_events a
       ++ [EvParse (wfile a) (step a) (skip a) (substitution a)
                   (allow_loose a)],
     setup_sink a s0, inr e).
Proof.
  intros Hf Hp. rewrite cli_after_setup.
  rewrite (run_workflow_parse_fails w a _ [] e Hf).
  - reflexivity.
  - simpl. rewrite <- Hp, <- (parse_silent (wfile a) (step a) (skip a)
                                (substitution a) (allow_loose a)).
    destruct (parsed a); reflexivity.
Qed.

Lemma system_runs a s0 l :
  truthy_tuple (skip a) && truthy (step a) = false ->
  snd (parsed a) = inl l ->
  exists c,
    loaded a = ([], inl c)
    /\ cli w a s0
       = (logfile_events a
            ++ [EvParse (wfile a) (step a) (skip a) (substitution a)
                        (allow_loose a);
                EvLoad (engine a) (resource_manager a) (conf a) (reuse a)
                       (dry_run a) (skip_pull a) (skip_clone a)
                       (workspace a);
                EvRunner c; EvEnter; EvRun l]
            ++ map (observe (setup_sink a s0)) (fst (run_steps c backend l))
            ++ handler_events (setup_sink a s0) (run_steps c backend l)
            ++ [EvExit (exit_argument (body_outcome (run_steps c backend l)))],
          setup_sink a s0,
          with_outcome (body_outcome (run_steps c backend l)) (inl false)).
Proof.
  intros Hf Hp. eexists. split; [reflexivity |].
  erewrite (cli_runner w a s0 l _ [] [] [] [] Hf); try reflexivity.
  - cbn [system WorkflowRunner_run WorkflowRunner_exit fst snd map].
    flatten_trace. reflexivity.
  - simpl. rewrite <- Hp, <- (parse_silent (wfile a) (step a) (skip a)
                                (substitution a) (allow_loose a)).
    destruct (parsed a); reflexivity.
Qed.

Lemma quiet_observe s (ef : list effect) :
  runner_configs (map (@observe (list resolved_step) run_config s) ef) = []
  /\ no_parse (map (@observe (list resolved_step) run_config s) ef).
Proof.
  unfold no_parse. induction ef as [| [l m | i] ef [IH1 IH2]]; simpl;
    split; auto.
Qed.

Lemma quiet_handler s (r : @call (list (string * step_state))) :
  executed_steps (@handler_events (list resolved_step) run_config _ s r) = []
  /\ runner_configs (@handler_events (list resolved_step) run_config _ s r)
     = []
  /\ no_parse (@handler_events (list resolved_step) run_config _ s r).
Proof.
  unfold handler_events, no_parse.
  destruct (snd r) as [v | [k | | | e]]; simpl; repeat split;
    repeat constructor.
Qed.



(** The steps executed in a run, and the configurations of its runner. *)
Lemma system_outline a s0 :
  let t := trace_of (cli w a s0) in
  (executed_steps t = [] /\ runner_configs t = [])
  \/ (exists l c,
        truthy_tuple (skip a) && truthy (step a) = false
        /\ snd (parsed a) = inl l
        /\ loaded a = ([], inl c)
        /\ executed_steps t = backend_ids (fst (run_steps c backend l))
        /\ runner_configs t = [c]).
Proof.
  intros t. subst t.
  destruct (logfile_events_quiet (workflow:=list resolved_step)
              (config:=run_config) a) as [He [Hc _]].
  destruct (truthy_tuple (skip a) && truthy (step a)) eqn:Hf.
  - left. rewrite (system_conflict a s0 Hf). unfold trace_of. cbn [fst].
    rewrite executed_steps_app, runner_configs_app, He, Hc. auto.
  - destruct (snd (parsed a)) as [l | e] eqn:Hp.
    + right. destruct (system_runs a s0 l Hf Hp) as [c [Hl Hrun]].
      exists l, c. rewrite Hrun. unfold trace_of. cbn [fst].
      rewrite !executed_steps_app, !runner_configs_app, He, Hc.
      rewrite executed_steps_observe.
      destruct (quiet_handler (setup_sink a s0) (run_steps c backend l))
        as [Hh1 [Hh2 _]].
      destruct (quiet_observe (setup_sink a s0)
                              (fst (run_steps c backend l))) as [Ho _].
      rewrite Hh1, Hh2, Ho. simpl. rewrite app_nil_r. auto.
    + left. rewrite (system_parse_fails a s0 e Hf Hp). unfold trace_of.
      cbn [fst]. rewrite executed_steps_app, runner_configs_app, He, Hc.
      auto.
Qed.

(** ** Substitutions *)

(** C5: the parser is called once, first among the collaborators, so before
    any step is executed.  When a substitution key is used by no step, the
    strict mode ends the run there with UnusedSubstitution, and with
    [--allow-loose] the run goes on to the runner. *)
Theorem unused_substitution_checked_at_build a s0 k ks :
  truthy_tuple (skip a) && truthy (step a) = false ->
  unused_keys (declared (wfile a))
              (map split_substitution (substitution a)) = k :: ks ->
  (exists post,
      trace_of (cli w a s0)
      = logfile_events a
          ++ EvParse (wfile a) (step a) (skip a) (substitution a)
                     (allow_loose a) :: post
      /\ no_parse post)
  /\ (allow_loose a = false ->
      cli w a s0
      = (logfile_events a
           ++ [EvParse (wfile a) (step a) (skip a) (substitution a) false],
         setup_sink a s0, inr (Exc (unused_substitution k))))
  /\ (allow_loose a = true ->
      forall l,
        resolve_all (map split_substitution (substitution a))
                    (plan (declared (wfile a)) (step a) (skip a)) = inl l ->
        exists c post,
          trace_of (cli w a s0)
          = logfile_events a
              ++ [EvParse (wfile a) (step a) (skip a) (substitution a) true;
                  EvLoad (engine a) (resource_manager a) (conf a) (reuse a)
                         (dry_run a) (skip_pull a) (skip_clone a)
                         (workspace a);
                  EvRunner c; EvEnter; EvRun l]
              ++ post).
Proof.
  intros Hf Hu. split; [| split].
  - destruct (snd (parsed a)) as [l | e] eqn:Hp.
    + destruct (system_runs a s0 l Hf Hp) as [c [_ Hrun]]. rewrite Hrun.
      unfold trace_of. cbn [fst app]. eexists. split; [reflexivity |].
      unfold no_parse. repeat (constructor; [exact I |]).
      apply Forall_app; split; [apply quiet_observe |].
      apply Forall_app; split; [apply quiet_handler |].
      repeat constructor.
    + rewrite (system_parse_fails a s0 e Hf Hp). unfold trace_of.
      cbn [fst]. exists []. split; [reflexivity | constructor].
  - intros Hl.
    assert (Hp : snd (parsed a) = inr (Exc (unused_substitution k))).
    { unfold parse. rewrite Hl, Hu. reflexivity. }
    rewrite (system_parse_fails a s0 _ Hf Hp), Hl. reflexivity.
  - intros Hl l Hr.
    assert (Hp : snd (parsed a) = inl l).
    { unfold parse. rewrite Hl, Hr. reflexivity. }
    destruct (system_runs a s0 l Hf Hp) as [c [_ Hrun]]. rewrite Hrun, Hl.
    unfold trace_of. cbn [fst]. eexists c, _. reflexivity.
Qed.

(** ** Flags and the configuration file *)

(** C7: an engine given by [--engine] is the engine of the configuration
    the runner gets, and a resource manager given by [--resource-manager]
    is its resource manager, whatever the configuration file names; the
    runner gets the configuration the loader resolved. *)
Theorem flag_overrides_configuration_file a s0 :
  let t := trace_of (cli w a s0) in
  (forall e, engine a = Some e ->
             Forall (fun c => cfg_engine c = e) (runner_configs t))
  /\ (forall r, resource_manager a = Some r ->
                Forall (fun c => cfg_resman c = r) (runner_configs t))
  /\ (truthy_tuple (skip a) && truthy (step a) = false ->
      forall l, snd (parsed a) = inl l ->
                exists c, loaded a = ([], inl c) /\ runner_configs t = [c]).
Proof.
  intros t.
  destruct (system_outline a s0) as [[_ Hc] | [l [c [Hf [Hp [Hl [_ Hc]]]]]]];
    fold t in Hc; rewrite Hc.
  - repeat split; try constructor.
    intros Hf l Hp.
    destruct (system_runs a s0 l Hf Hp) as [c [_ Hrun]].
    exfalso. subst t. rewrite Hrun in Hc. unfold trace_of in Hc.
    cbn [fst] in Hc. rewrite runner_configs_app in Hc.
    apply app_eq_nil in Hc. destruct Hc as [_ Hc]. discriminate Hc.
  - unfold load in Hl. inversion Hl as [Hcfg]. clear Hl.
    split; [| split].
    + intros e He. constructor; [| constructor]. simpl. rewrite He.
      reflexivity.
    + intros r Hr. constructor; [| constructor]. simpl. rewrite Hr.
      reflexivity.
    + intros _ l' _. eexists. split; reflexivity.
Qed.

(** ** Filters *)


End System.

(** * The order of the calls and what stops it *)

Section CallOrder.

Context {workflow config run_result : Type}.

Implicit Types (w : @collaborators workflow config run_result)
               (a : cli_args string) (s : sink).

Lemma with_runner_init_fails w c wf s ie e :
  WorkflowRunner_init w c = (ie, inr e) ->
  with_runner w c wf s = (EvRunner c :: map (observe s) ie, s, inr e).
Proof.
  intros Hi. unfold with_runner. unfold bind at 1. unfold invoke at 1.
  rewrite Hi. reflexivity.
Qed.

Lemma with_runner_enter_fails w c wf s ie ee e :
  WorkflowRunner_init w c = (ie, inl tt) ->
  WorkflowRunner_enter w c = (ee, inr e) ->
  with_runner w c wf s
  = (EvRunner c :: map (observe s) ie ++ EvEnter :: map (observe s) ee,
     s, inr e).
Proof.
  intros Hi He. unfold with_runner. unfold bind at 1. unfold invoke at 1.
  rewrite Hi. cbn [fst snd app]. unfold bind at 1. unfold invoke at 1.
  rewrite He. reflexivity.
Qed.

Lemma lifecycle_app (t1 t2 : list (@event workflow config)) :
  lifecycle (t1 ++ t2) = lifecycle t1 ++ lifecycle t2.
Proof.
  induction t1 as [| ev t1 IH]; [reflexivity |].
  simpl. destruct (stage_of ev); rewrite IH; reflexivity.
Qed.

Lemma lifecycle_observe s (ef : list effect) :
  lifecycle (map (@observe workflow config s) ef) = [].
Proof.
  induction ef as [| [l m | i] ef IH]; simpl; auto.
Qed.

Lemma lifecycle_logfile a :
  lifecycle (@logfile_events workflow config a) = [].
Proof.
  unfold logfile_events.
  destruct (log_file a) as [f |]; [destruct (truthy (Some f)) |];
    reflexivity.
Qed.

Lemma lifecycle_handler s (r : @call run_result) :
  lifecycle (@handler_events workflow config _ s r) = [].
Proof.
  unfold handler_events. destruct (snd r) as [v | [k | | | e]]; reflexivity.
Qed.

Ltac stages :=
  repeat first [ rewrite lifecycle_app
               | rewrite lifecycle_observe
               | rewrite lifecycle_logfile
               | rewrite lifecycle_handler
               | progress cbn [lifecycle stage_of app] ].

(** X1: an exception out of the parser leaves [cli] as it is, also when it
    derives from [Exception]: nothing is written for it, and neither the
    loader nor the runner is called. *)
Theorem parser_exception_propagates w a s0 pe e :
  truthy_tuple (skip a) && truthy (step a) = false ->
  WorkflowParser_parse w (wfile a) (step a) (skip a) (substitution a)
                       (allow_loose a) = (pe, inr e) ->
  cli w a s0
  = (logfile_events a
       ++ EvParse (wfile a) (step a) (skip a) (substitution a)
                  (allow_loose a)
       :: map (observe (setup_sink a s0)) pe,
     setup_sink a s0, inr e).
Proof.
  intros Hf Hp. rewrite cli_after_setup.
  rewrite (run_workflow_parse_fails w a _ pe e Hf Hp). reflexivity.
Qed.

(** X2: an exception out of the loader leaves [cli] as it is; the runner is
    not constructed, so nothing is entered, run or released. *)
Theorem loader_exception_propagates w a s0 wf pe le e :
  truthy_tuple (skip a) && truthy (step a) = false ->
  WorkflowParser_parse w (wfile a) (step a) (skip a) (substitution a)
                       (allow_loose a) = (pe, inl wf) ->
  ConfigLoader_load w (engine a) (resource_manager a) (conf a) (reuse a)
                    (dry_run a) (skip_pull a) (skip_clone a) (workspace a)
  = (le, inr e) ->
  cli w a s0
  = (logfile_events a
       ++ EvParse (wfile a) (step a) (skip a) (substitution a)
                  (allow_loose a)
       :: map (observe (setup_sink a s0)) pe
       ++ EvLoad (engine a) (resource_manager a) (conf a) (reuse a)
                 (dry_run a) (skip_pull a) (skip_clone a) (workspace a)
       :: map (observe (setup_sink a s0)) le,
     setup_sink a s0, inr e).
Proof.
  intros Hf Hp Hl. rewrite cli_after_setup.
  rewrite (run_workflow_load_fails w a _ wf pe le e Hf Hp Hl). reflexivity.
Qed.

(** X4: when [__enter__] of the runner raises, the workflow is not run and
    [__exit__] is not called; the exception leaves [cli] as it is. *)
Theorem enter_exception_skips_release w a s0 wf c pe le ie ee e :
  truthy_tuple (skip a) && truthy (step a) = false ->
  WorkflowParser_parse w (wfile a) (step a) (skip a) (substitution a)
                       (allow_loose a) = (pe, inl wf) ->
  ConfigLoader_load w (engine a) (resource_manager a) (conf a) (reuse a)
                    (dry_run a) (skip_pull a) (skip_clone a) (workspace a)
  = (le, inl c) ->
  WorkflowRunner_init w c = (ie, inl tt) ->
  WorkflowRunner_enter w c = (ee, inr e) ->
  outcome_of (cli w a s0) = inr e
  /\ lifecycle (trace_of (cli w a s0)) = [Parse; Load; Construct; Enter].
Proof.
  intros Hf Hp Hl Hi He. rewrite cli_after_setup.
  rewrite (run_workflow_runner w a _ wf c pe le Hf Hp Hl).
  rewrite (with_runner_enter_fails w c wf _ ie ee e Hi He).
  unfold outcome_of, trace_of. cbn [fst snd].
  split; [reflexivity |]. stages. reflexivity.
Qed.

(** X5: in every run the calls of the collaborators are exactly those up
    to the first that raises, in the order parser, loader, constructor,
    [__enter__], [run], [__exit__], each at most once; when [__enter__]
    returns, [run] is called and is followed by [__exit__] whatever [run]
    does. *)
Theorem calls_in_order w a s0 :
  lifecycle (trace_of (cli w a s0)) = calls_until_raise w a.
Proof.
  rewrite cli_after_setup. unfold trace_of at 1. cbn [fst].
  rewrite lifecycle_app, lifecycle_logfile. cbn [app].
  unfold calls_until_raise.
  destruct (truthy_tuple (skip a) && truthy (step a)) eqn:Hf.
  { rewrite (run_workflow_conflict w a _ Hf). reflexivity. }
  destruct (WorkflowParser_parse w (wfile a) (step a) (skip a)
              (substitution a) (allow_loose a)) as [pe [wf | e]] eqn:Hp;
    cbn [snd].
  2: { rewrite (run_workflow_parse_fails w a _ pe e Hf Hp).
       unfold trace_of. cbn [fst snd]. stages. reflexivity. }
  destruct (ConfigLoader_load w (engine a) (resource_manager a) (conf a)
              (reuse a) (dry_run a) (skip_pull a) (skip_clone a)
              (workspace a)) as [le [c | e]] eqn:Hl;
    cbn [snd].
  2: { rewrite (run_workflow_load_fails w a _ wf pe le e Hf Hp Hl).
       unfold trace_of. cbn [fst snd]. stages. reflexivity. }
  rewrite (run_workflow_runner w a _ wf c pe le Hf Hp Hl).
  destruct (WorkflowRunner_init w c) as [ie [[] | e]] eqn:Hi;
    cbn [snd].
  2: { rewrite (with_runner_init_fails w c wf _ ie e Hi).
       unfold trace_of. cbn [fst snd]. stages. reflexivity. }
  destruct (WorkflowRunner_enter w c) as [ee [[] | e]] eqn:He;
    cbn [snd].
  2: { rewrite (with_runner_enter_fails w c wf _ ie ee e Hi He).
       unfold trace_of. cbn [fst snd]. stages. reflexivity. }
  rewrite (with_runner_spec w c wf _ ie ee Hi He).
  unfold trace_of. cbn [fst snd]. stages. reflexivity.
Qed.

(** X3: when the constructor of the runner raises, nothing is entered, run
    or released; the exception leaves [cli] as it is. *)
Theorem constructor_exception_propagates w a s0 wf c pe le ie e :
  truthy_tuple (skip a) && truthy (step a) = false ->
  WorkflowParser_parse w (wfile a) (step a) (skip a) (substitution a)
                       (allow_loose a) = (pe, inl wf) ->
  ConfigLoader_load w (engine a) (resource_manager a) (conf a) (reuse a)
                    (dry_run a) (skip_pull a) (skip_clone a) (workspace a)
  = (le, inl c) ->
  WorkflowRunner_init w c = (ie, inr e) ->
  outcome_of (cli w a s0) = inr e
  /\ lifecycle (trace_of (cli w a s0)) = [Parse; Load; Construct].
Proof.
  intros Hf Hp Hl Hi. rewrite cli_after_setup.
  rewrite (run_workflow_runner w a _ wf c pe le Hf Hp Hl).
  rewrite (with_runner_init_fails w c wf _ ie e Hi).
  unfold outcome_of, trace_of. cbn [fst snd].
  split; [reflexivity |]. stages. reflexivity.
Qed.

Lemma parse_comes_first w a s :
  truthy_tuple (skip a) && truthy (step a) = false ->
  exists post,
    trace_of (run_workflow w a s)
    = EvParse (wfile a) (step a) (skip a) (substitution a) (allow_loose a)
        :: post.
Proof.
  intros Hf. unfold run_workflow. unfold bind at 1.
  rewrite (check_filters_pass _ _ Hf). unfold bind at 1. unfold invoke at 1.
  destruct (WorkflowParser_parse w (wfile a) (step a) (skip a)
              (substitution a) (allow_loose a)) as [pe [wf | e]];
    cbn [fst snd app].
  - destruct (bind (invoke (EvLoad _ _ _ _ _ _ _ _) _) _ s) as [[t' s''] r].
    unfold trace_of. cbn [fst]. eexists. reflexivity.
  - unfold trace_of. cbn [fst]. eexists. reflexivity.
Qed.

Lemma logfile_events_no_call a :
  collaborator_calls (@logfile_events workflow config a) = [].
Proof.
  unfold logfile_events.
  destruct (log_file a) as [f |]; [destruct (truthy (Some f)) |];
    reflexivity.
Qed.

(** X6: the command stops before its first call exactly when the skip-list
    is not empty and STEP is given and not empty; in every other case the
    parser is called. *)
Theorem rejection_is_exact w a s0 :
  collaborator_calls (trace_of (cli w a s0)) = []
  <-> skip a <> [] /\ truthy (step a) = true.
Proof.
  rewrite cli_after_setup. unfold trace_of at 1. cbn [fst].
  unfold collaborator_calls. rewrite filter_app.
  fold (collaborator_calls (@logfile_events workflow config a)).
  rewrite logfile_events_no_call. cbn [app].
  destruct (truthy_tuple (skip a) && truthy (step a)) eqn:Hf.
  - rewrite (run_workflow_conflict w a _ Hf). unfold trace_of. cbn [fst].
    simpl. apply andb_true_iff in Hf. destruct Hf as [Hk Hs].
    split; [intros _ | reflexivity]. split; [| exact Hs].
    destruct (skip a); [discriminate Hk | discriminate].
  - destruct (parse_comes_first w a (setup_sink a s0) Hf) as [post Hpost].
    rewrite Hpost. simpl. split; [discriminate |].
    intros [Hk Hs]. rewrite Hs in Hf.
    destruct (skip a); [contradiction | discriminate Hf].
Qed.

(** X7: what [run] returns is not looked at.  When it returns, whatever the
    value, nothing is written by [cli], the runner is released with no
    exception, and the command returns unless [__exit__] raises. *)
Theorem run_result_ignored w a s0 wf c pe le ie ee re (v : run_result) :
  truthy_tuple (skip a) && truthy (step a) = false ->
  WorkflowParser_parse w (wfile a) (step a) (skip a) (substitution a)
                       (allow_loose a) = (pe, inl wf) ->
  ConfigLoader_load w (engine a) (resource_manager a) (conf a) (reuse a)
                    (dry_run a) (skip_pull a) (skip_clone a) (workspace a)
  = (le, inl c) ->
  WorkflowRunner_init w c = (ie, inl tt) ->
  WorkflowRunner_enter w c = (ee, inl tt) ->
  WorkflowRunner_run w c wf = (re, inl v) ->
  let s := setup_sink a s0 in
  let x := WorkflowRunner_exit w c None in
  (exists pre,
      trace_of (cli w a s0)
      = pre ++ EvRun wf :: map (observe s) re
            ++ EvExit None :: map (observe s) (fst x))
  /\ outcome_of (cli w a s0)
     = match snd x with
       | inl _ => inl tt
       | inr e' => inr e'
       end.
Proof.
  intros Hf Hp Hl Hi He Hr s x.
  rewrite (cli_runner _ _ _ _ _ _ _ _ _ Hf Hp Hl Hi He). fold s.
  unfold handler_events, body_outcome. rewrite Hr. cbn [fst snd].
  cbn [exit_argument]. fold x. unfold trace_of, outcome_of. cbn [fst snd].
  split.
  - eexists. rewrite app_nil_r. reflexivity.
  - destruct (snd x) as [b | e']; reflexivity.
Qed.

(** X8: what [run] raises and does not derive from [Exception] is not
    handled: [cli] writes nothing, the runner is released with that very
    exception, and it leaves the command unless [__exit__] swallows or
    replaces it. *)
Theorem base_exception_passes_through w a s0 wf c pe le ie ee re x :
  truthy_tuple (skip a) && truthy (step a) = false ->
  WorkflowParser_parse w (wfile a) (step a) (skip a) (substitution a)
                       (allow_loose a) = (pe, inl wf) ->
  ConfigLoader_load w (engine a) (resource_manager a) (conf a) (reuse a)
                    (dry_run a) (skip_pull a) (skip_clone a) (workspace a)
  = (le, inl c) ->
  WorkflowRunner_init w c = (ie, inl tt) ->
  WorkflowRunner_enter w c = (ee, inl tt) ->
  WorkflowRunner_run w c wf = (re, inr x) ->
  as_Exception x = None ->
  let s := setup_sink a s0 in
  let r := WorkflowRunner_exit w c (Some x) in
  (exists pre,
      trace_of (cli w a s0)
      = pre ++ EvRun wf :: map (observe s) re
            ++ EvExit (Some x) :: map (observe s) (fst r))
  /\ outcome_of (cli w a s0)
     = match snd r with
       | inl true => inl tt
       | inl false => inr x
       | inr e' => inr e'
       end.
Proof.
  intros Hf Hp Hl Hi He Hr Hx s r.
  rewrite (cli_runner _ _ _ _ _ _ _ _ _ Hf Hp Hl Hi He). fold s.
  unfold handler_events, body_outcome. rewrite Hr. cbn [fst snd].
  destruct x as [k | | | e]; [| | | discriminate Hx];
    cbn [exit_argument]; fold r; unfold trace_of, outcome_of;
    cbn [fst snd]; (split; [eexists; rewrite app_nil_r; reflexivity |]);
    destruct (snd r) as [[|] | e']; reflexivity.
Qed.

(** ** The sink and the parameters *)

(** X9: a log file that is given and not empty is attached once, before
    anything else happens, so also when the filters are then rejected or a
    collaborator raises; it is added to the files of the sink. *)
Theorem log_file_attached_first w a s0 f :
  log_file a = Some f ->
  f <> "" ->
  exists t,
    trace_of (cli w a s0) = EvAddLog f :: t
    /\ no_log_file t
    /\ log_files (sink_of (cli w a s0)) = f :: log_files s0.
Proof.
  intros Hf Hne. destruct (cli_shape w a s0) as [t [Ht [Hall Hs]]].
  assert (Htr : truthy (Some f) = true).
  { simpl. destruct (String.eqb_spec f ""); [contradiction | reflexivity]. }
  exists t. rewrite Ht, Hs. unfold logfile_events, setup_sink.
  rewrite Hf, Htr. simpl. repeat split.
  unfold no_log_file. eapply Forall_impl; [| exact Hall].
  intros [| | | | | | | |]; simpl; trivial.
Qed.

(** X10: [--log-file] with an empty path is like no [--log-file]: no file is
    attached and the sink keeps the files it had. *)
Theorem empty_log_file_ignored w a s0 :
  log_file a = Some "" ->
  no_log_file (trace_of (cli w a s0))
  /\ log_files (sink_of (cli w a s0)) = log_files s0.
Proof.
  intros Hf. destruct (cli_shape w a s0) as [t [Ht [Hall Hs]]].
  rewrite Ht, Hs. unfold logfile_events, setup_sink. rewrite Hf. simpl.
  split; [| reflexivity].
  unfold no_log_file. eapply Forall_impl; [| exact Hall].
  intros [| | | | | | | |]; simpl; trivial.
Qed.

(** X11: whenever the parser is called it gets the file, STEP, the skip-list,
    the substitutions and the loose flag of the command, and whenever the
    loader is called it gets the engine, the resource manager, the
    configuration file, the reuse, dry-run, skip-pull and skip-clone flags
    and the workspace of the command, none exchanged for another. *)
Theorem parameters_wired w a s0 : wired a (trace_of (cli w a s0)).
Proof.
  destruct (cli_shape w a s0) as [t [Ht [Hall _]]]. rewrite Ht.
  unfold wired. apply Forall_app. split.
  - unfold logfile_events.
    destruct (log_file a) as [f |]; [destruct (truthy (Some f)) |];
      repeat constructor.
  - eapply Forall_impl; [| exact Hall].
    intros [| | | | | | | |]; simpl; trivial.
Qed.

(** X12: with [--debug] records of every level pass the threshold; without
    it debug records do not; records at the error level, those of
    [log.fail] among them, pass under every combination of the flags. *)
Theorem thresholds_of_the_flags (step_info : Z) w a s0 :
  (10 < step_info < 20)%Z ->
  let s := sink_of (cli w a s0) in
  (debug a = true -> forall l, isEnabledFor step_info s l = true)
  /\ (debug a = false -> isEnabledFor step_info s DEBUG = false)
  /\ isEnabledFor step_info s ERROR = true.
Proof.
  intros Hsi s. destruct (cli_shape w a s0) as [t [_ [_ Hs]]].
  subst s. rewrite Hs. unfold isEnabledFor, setup_sink, cli_level. simpl.
  split; [| split].
  - intros Hd l. rewrite Hd. destruct l; simpl; apply Z.leb_le; lia.
  - intros Hd. rewrite Hd. destruct (quiet a); simpl; apply Z.leb_gt; lia.
  - destruct (debug a), (quiet a); simpl; apply Z.leb_le; lia.
Qed.

End CallOrder.

(** X13: the marker is set and never cleared.  After a dry run, a second
    invocation in the same process writes every record with the marker and
    leaves it in the sink, also without [--dry-run]. *)
Theorem marker_survives_next_invocation
  {workflow config run_result workflow' config' run_result' : Type}
  (w1 : @collaborators workflow config run_result)
  (w2 : @collaborators workflow' config' run_result')
  (a1 a2 : cli_args string) (s0 : sink) :
  dry_run a1 = true ->
  let s1 := sink_of (cli w1 a1 s0) in
  records (fun s _ _ => msg_prefix s = DRYRUN) (trace_of (cli w2 a2 s1))
  /\ msg_prefix (sink_of (cli w2 a2 s1)) = DRYRUN.
Proof.
  intros Hd s1.
  destruct (cli_shape w1 a1 s0) as [t1 [_ [_ Hs1]]].
  destruct (cli_shape w2 a2 s1) as [t2 [_ [_ Hs2]]].
  assert (Hp : msg_prefix (setup_sink a2 s1) = DRYRUN).
  { unfold setup_sink. simpl. destruct (dry_run a2); [reflexivity |].
    subst s1. rewrite Hs1. unfold setup_sink. simpl. rewrite Hd.
    reflexivity. }
  split.
  - eapply records_impl; [| apply cli_records_under].
    intros s _ _ ->. exact Hp.
  - rewrite Hs2. exact Hp.
Qed.

(** X14: a command line that click accepts calls the loader only with an
    engine among docker, singularity and vagrant, or none, and with a
    resource manager among host and slurm, or none. *)
Theorem accepted_choices_reach_loader {workflow config run_result : Type}
  (w : @collaborators workflow config run_result) (env : process_env)
  (o : cli_args (option string)) (s0 : sink) r :
  run_command w env o s0 = Some r ->
  loads_choices (trace_of r).
Proof.
  unfold run_command. destruct (click_accepts o) eqn:Hacc; [| discriminate].
  intros H. inversion H. subst r. clear H.
  apply andb_true_iff in Hacc. destruct Hacc as [He Hr].
  assert (Hin : forall cs v, in_choices cs v = true ->
                  v = None \/ exists x, v = Some x /\ In x cs).
  { intros cs [x |] Hv; [right | left; reflexivity].
    exists x. split; [reflexivity |]. simpl in Hv.
    apply existsb_exists in Hv. destruct Hv as [y [Hy Hxy]].
    apply String.eqb_eq in Hxy. subst y. exact Hy. }
  unfold main.
  destruct (cli_shape w (click_params env o) s0) as [t [Ht [Hall _]]].
  rewrite Ht. unfold loads_choices. apply Forall_app. split.
  - unfold logfile_events.
    destruct (log_file (click_params env o)) as [f |];
      [destruct (truthy (Some f)) |]; repeat constructor.
  - eapply Forall_impl; [| exact Hall].
    intros [| | | en rn cf re d sp sc wd | | | | |]; simpl; trivial.
    intros [-> [-> _]]. split; [exact (Hin _ _ He) | exact (Hin _ _ Hr)].
Qed.

(** X15: a workspace given with [--workspace] is the one every call of the
    loader gets, whatever the working directory of the process is or was. *)
Theorem explicit_workspace_passed {workflow config run_result : Type}
  (w : @collaborators workflow config run_result) (env : process_env)
  (o : cli_args (option string)) (s0 : sink) (dir : string) :
  workspace o = Some dir ->
  loads_workspace dir (trace_of (main w env o s0)).
Proof.
  intros Hw. unfold main.
  destruct (cli_shape w (click_params env o) s0) as [t [Ht [Hall _]]].
  rewrite Ht. unfold loads_workspace. apply Forall_app. split.
  - unfold logfile_events.
    destruct (log_file (click_params env o)) as [f |];
      [destruct (truthy (Some f)) |]; repeat constructor.
  - eapply Forall_impl; [| exact Hall].
    intros [| | | en rn cf re d sp sc wd | | | | |]; simpl; trivial.
    rewrite Hw. tauto.
Qed.

(** ** Sample invocations among the specification's collaborators *)

Lemma unused_substitution_checked_at_build_witness :
  outcome_of (cli sample_system
                  (system_args None [] ["X=1"] false None None) plain_sink)
  = inr (Exc (unused_substitution "X"))
  /\ executed_steps
       (trace_of (cli sample_system
                      (system_args None [] ["X=1"] false None None)
                      plain_sink)) = [].
Proof.
  destruct (unused_substitution_checked_at_build
              (fun _ => three_steps)
              (fun _ => mkConfigFile (Some "singularity") (Some "slurm"))
              "docker" "host" (fun _ => Exit 0)
              (system_args None [] ["X=1"] false None None) plain_sink
              "X" [] eq_refl eq_refl) as [_ [H _]].
  unfold sample_system. rewrite (H eq_refl). split; reflexivity.
Defined.

Lemma unused_substitution_loose_sample :
  let r := cli sample_system (system_args None [] ["X=1"] true None None)
               plain_sink in
  outcome_of r = inl tt /\ executed_steps (trace_of r) = ["A"; "B"; "C"].
Proof. split; reflexivity. Qed.

Lemma flag_overrides_configuration_file_witness :
  Forall (fun c => cfg_engine c = "docker")
         (runner_configs
            (trace_of (cli sample_system
                           (system_args None [] [] false (Some "docker")
                                        (Some "conf.yml"))
                           plain_sink))).
Proof.
  apply (flag_overrides_configuration_file
           (fun _ => three_steps)
           (fun _ => mkConfigFile (Some "singularity") (Some "slurm"))
           "docker" "host" (fun _ => Exit 0)
           (system_args None [] [] false (Some "docker") (Some "conf.yml"))
           plain_sink).
  reflexivity.
Defined.

Lemma configuration_file_without_flag_sample :
  runner_configs
    (trace_of (cli sample_system
                   (system_args None [] [] false None (Some "conf.yml"))
                   plain_sink))
  = [mkConfig "singularity" "slurm" "/ws" false false false false].
Proof. reflexivity. Qed.



Lemma single_step_sample :
  executed_steps
    (trace_of (cli sample_system
                   (system_args (Some "B") [] [] false None None)
                   plain_sink))
  = ["B"].
Proof. reflexivity. Qed.

(** ** Sample invocations, run *)

Lemma debug_overrides_quiet_sample :
  sink_level (sink_of (cli (runner_ending (inl tt))
                           (sample_args None [] true true "/ws")
                           plain_sink)) = DEBUG.
Proof. reflexivity. Qed.

Lemma quiet_raises_threshold_witness :
  let s := sink_of (cli (runner_ending (inl tt))
                        (sample_args None [] true false "/ws") plain_sink) in
  sink_level s = INFO
  /\ isEnabledFor 15 s STEP_INFO = false
  /\ isEnabledFor 15 s ERROR = true.
Proof.
  pose proof (quiet_raises_threshold 15 (runner_ending (inl tt))
                (sample_args None [] true false "/ws")
                (sample_args None [] false false "/ws") plain_sink
                ltac:(lia) eq_refl eq_refl eq_refl eq_refl) as H.
  cbv zeta in H. intros s. repeat split; apply H.
Defined.


Lemma conflicting_filters_rejected_witness :
  outcome_of (cli (runner_ending (inl tt))
                  (sample_args (Some "build") ["test"] false false "/ws")
                  plain_sink) = inr (SystemExit 1)
  /\ collaborator_calls
       (trace_of (cli (runner_ending (inl tt))
                      (sample_args (Some "build") ["test"] false false "/ws")
                      plain_sink)) = [].
Proof.
  pose proof (conflicting_filters_rejected (runner_ending (inl tt))
                (sample_args (Some "build") ["test"] false false "/ws")
                plain_sink eq_refl ltac:(discriminate)) as H.
  split; apply H.
Defined.

(** C1, as stated, fails for an empty STEP: [popper run -f wf.yml --skip
    build ""] passes the check, the workflow is parsed and run. *)
Lemma empty_step_with_skip_not_rejected :
  let a := sample_args (Some "") ["build"] false false "/ws" in
  let r := cli (runner_ending (inl tt)) a plain_sink in
  step a = Some "" /\ skip a = ["build"]
  /\ outcome_of r = inl tt
  /\ trace_of r
     = [EvParse "wf.yml" (Some "") ["build"] [] false;
        EvLoad None None None false false false false "/ws";
        EvRunner tt; EvEnter; EvRun tt; EvExit None]
  /\ ~ (outcome_of r = inr (SystemExit 1)
        /\ collaborator_calls (trace_of r) = []).
Proof.
  cbv zeta. repeat split; try reflexivity.
  intros [H _]. discriminate H.
Qed.

Lemma runner_released_on_every_exit_path_witness :
  exists pre mid post,
    trace_of (cli (runner_ending (inr KeyboardInterrupt))
                  (sample_args None [] false false "/ws") plain_sink)
    = pre ++ EvRun tt :: mid ++ EvExit (Some KeyboardInterrupt) :: post.
Proof.
  destruct (runner_released_on_every_exit_path
              (runner_ending (inr KeyboardInterrupt))
              (sample_args None [] false false "/ws") plain_sink
              tt tt [] [] [] [] eq_refl eq_refl eq_refl eq_refl eq_refl)
    as [pre H].
  exists pre, [], []. exact H.
Defined.

Lemma run_exception_summarized_witness :
  outcome_of (cli (runner_ending (inr (Exc boom)))
                  (sample_args None [] false false "/ws") plain_sink)
  = inr (SystemExit 1)
  /\ isEnabledFor 15 (setup_sink (@sample_args string None [] false false
                                                "/ws") plain_sink) DEBUG
     = false.
Proof.
  pose proof (run_exception_summarized 15
                (runner_ending (inr (Exc boom)))
                (sample_args None [] false false "/ws") plain_sink
                tt tt [] [] [] [] [] boom
                ltac:(lia) eq_refl eq_refl eq_refl eq_refl eq_refl eq_refl)
    as H.
  cbv zeta in H. destruct H as [_ [Hd [_ Ho]]]. split.
  - exact Ho.
  - exact Hd.
Defined.

(** C3, as stated, fails for what does not derive from [Exception]: a
    [KeyboardInterrupt] out of [run] is not caught, no record is written
    and the command ends with it. *)
Lemma keyboard_interrupt_not_summarized :
  cli (runner_ending (inr KeyboardInterrupt))
      (sample_args None [] false false "/ws") plain_sink
  = ([EvParse "wf.yml" None [] [] false;
      EvLoad None None None false false false false "/ws";
      EvRunner tt; EvEnter; EvRun tt; EvExit (Some KeyboardInterrupt)],
     plain_sink, inr KeyboardInterrupt).
Proof. reflexivity. Qed.

Lemma workspace_and_log_file_defaults_witness :
  loads_workspace "/home/u/a"
    (trace_of (main (runner_ending (inl tt)) (mkEnv "/home/u/a" "/home/u/b")
                    (mkArgs None "wf.yml" false false (Some "run.log") false
                            false None None [] false false [] false None
                            None)
                    plain_sink))
  /\ no_log_file
       (trace_of (main (runner_ending (inl tt))
                       (mkEnv "/home/u/a" "/home/u/b")
                       (sample_args None [] false false (Some "/ws"))
                       plain_sink)).
Proof.
  split.
  - apply (workspace_and_log_file_defaults (runner_ending (inl tt))
             (mkEnv "/home/u/a" "/home/u/b")
             (mkArgs None "wf.yml" false false (Some "run.log") false false
                     None None [] false false [] false None None)
             plain_sink).
    reflexivity.
  - apply (workspace_and_log_file_defaults (runner_ending (inl tt))
             (mkEnv "/home/u/a" "/home/u/b")
             (sample_args None [] false false (Some "/ws")) plain_sink).
    reflexivity.
Defined.

(** C10, as stated, fails when the process has changed directory between
    the loading of the module and the invocation: the loader is passed the
    former directory. *)
Lemma workspace_default_is_not_cwd_at_invocation :
  let env := mkEnv "/home/u/a" "/home/u/b" in
  let a := sample_args None [] false false None in
  let t := trace_of (main (runner_ending (inl tt)) env a plain_sink) in
  workspace a = None
  /\ In (EvLoad None None None false false false false "/home/u/a") t
  /\ ~ loads_workspace (cwd_at_invocation env) t.
Proof.
  cbv zeta. split; [reflexivity |]. split.
  - simpl. auto.
  - intros H. unfold loads_workspace in H. rewrite Forall_forall in H.
    specialize (H (EvLoad None None None false false false false
                          "/home/u/a")).
    simpl in H. assert (Hne : "/home/u/a" = "/home/u/b") by (apply H; auto).
    discriminate Hne.
Qed.

(** ** Sample invocations for the order of the calls *)

Lemma parser_exception_propagates_witness :
  outcome_of (cli (collaborators_ending (inr oops) (inl tt) (inl tt) (inl tt)
                                        (inl tt) (inl false))
                  (sample_args None [] false false "/ws") plain_sink)
  = inr oops.
Proof.
  rewrite (parser_exception_propagates
             (collaborators_ending (inr oops) (inl tt) (inl tt) (inl tt)
                                   (inl tt) (inl false))
             (sample_args None [] false false "/ws") plain_sink [] oops
             eq_refl eq_refl).
  reflexivity.
Defined.

Lemma loader_exception_propagates_witness :
  outcome_of (cli (collaborators_ending (inl tt) (inr oops) (inl tt) (inl tt)
                                        (inl tt) (inl false))
                  (sample_args None [] false false "/ws") plain_sink)
  = inr oops.
Proof.
  rewrite (loader_exception_propagates
             (collaborators_ending (inl tt) (inr oops) (inl tt) (inl tt)
                                   (inl tt) (inl false))
             (sample_args None [] false false "/ws") plain_sink tt [] []
             oops eq_refl eq_refl eq_refl).
  reflexivity.
Defined.

Lemma constructor_exception_propagates_witness :
  lifecycle
    (trace_of (cli (collaborators_ending (inl tt) (inl tt) (inr oops)
                                         (inl tt) (inl tt) (inl false))
                   (sample_args None [] false false "/ws") plain_sink))
  = [Parse; Load; Construct].
Proof.
  apply (constructor_exception_propagates
           (collaborators_ending (inl tt) (inl tt) (inr oops) (inl tt)
                                 (inl tt) (inl false))
           (sample_args None [] false false "/ws") plain_sink tt tt [] [] []
           oops eq_refl eq_refl eq_refl eq_refl).
Defined.

Lemma enter_exception_skips_release_witness :
  lifecycle
    (trace_of (cli (collaborators_ending (inl tt) (inl tt) (inl tt)
                                         (inr oops) (inl tt) (inl false))
                   (sample_args None [] false false "/ws") plain_sink))
  = [Parse; Load; Construct; Enter].
Proof.
  apply (enter_exception_skips_release
           (collaborators_ending (inl tt) (inl tt) (inl tt) (inr oops)
                                 (inl tt) (inl false))
           (sample_args None [] false false "/ws") plain_sink tt tt [] [] []
           [] oops eq_refl eq_refl eq_refl eq_refl eq_refl).
Defined.

Lemma run_result_ignored_witness :
  outcome_of (cli (collaborators_ending (inl tt) (inl tt) (inl tt) (inl tt)
                                        (inl tt) (inl true))
                  (sample_args None [] false false "/ws") plain_sink)
  = inl tt.
Proof.
  apply (run_result_ignored
           (collaborators_ending (inl tt) (inl tt) (inl tt) (inl tt)
                                 (inl tt) (inl true))
           (sample_args None [] false false "/ws") plain_sink tt tt [] [] []
           [] [] tt eq_refl eq_refl eq_refl eq_refl eq_refl eq_refl).
Defined.

Lemma base_exception_passes_through_witness :
  outcome_of (cli (collaborators_ending (inl tt) (inl tt) (inl tt) (inl tt)
                                        (inr (SystemExit 3)) (inl false))
                  (sample_args None [] false false "/ws") plain_sink)
  = inr (SystemExit 3).
Proof.
  apply (base_exception_passes_through
           (collaborators_ending (inl tt) (inl tt) (inl tt) (inl tt)
                                 (inr (SystemExit 3)) (inl false))
           (sample_args None [] false false "/ws") plain_sink tt tt [] [] []
           [] [] (SystemExit 3)
           eq_refl eq_refl eq_refl eq_refl eq_refl eq_refl eq_refl).
Defined.

Lemma log_file_attached_first_witness :
  exists t,
    trace_of (cli (runner_ending (inl tt))
                  (logged_args "run.log" (Some "build") ["test"])
                  plain_sink)
    = EvAddLog "run.log" :: t.
Proof.
  destruct (log_file_attached_first
              (runner_ending (inl tt))
              (logged_args "run.log" (Some "build") ["test"]) plain_sink
              "run.log" eq_refl ltac:(discriminate)) as [t [H _]].
  exists t. exact H.
Defined.

Lemma empty_log_file_ignored_witness :
  log_files (sink_of (cli (runner_ending (inl tt))
                          (logged_args "" None []) plain_sink)) = [].
Proof.
  apply (empty_log_file_ignored (runner_ending (inl tt))
           (logged_args "" None []) plain_sink eq_refl).
Defined.

Lemma thresholds_of_the_flags_witness :
  isEnabledFor 15
    (sink_of (cli (runner_ending (inl tt))
                  (sample_args None [] true false "/ws") plain_sink))
    ERROR = true.
Proof.
  apply (thresholds_of_the_flags 15 (runner_ending (inl tt))
           (sample_args None [] true false "/ws") plain_sink ltac:(lia)).
Defined.

Lemma marker_survives_next_invocation_witness :
  msg_prefix
    (sink_of (cli (runner_ending (inl tt))
                  (sample_args None [] false false "/ws")
                  (sink_of (cli (runner_ending (inl tt))
                                (mkArgs None "wf.yml" false true None false
                                        false None None [] false false []
                                        false "/ws" None)
                                plain_sink))))
  = DRYRUN.
Proof.
  apply (marker_survives_next_invocation
           (runner_ending (inl tt)) (runner_ending (inl tt))
           (mkArgs None "wf.yml" false true None false false None None []
                   false false [] false "/ws" None)
           (sample_args None [] false false "/ws") plain_sink eq_refl).
Defined.

Lemma accepted_choices_reach_loader_witness :
  loads_choices
    (trace_of (main (runner_ending (inl tt)) (mkEnv "/a" "/a")
                    (engine_args (Some "vagrant") (Some "slurm"))
                    plain_sink)).
Proof.
  apply (accepted_choices_reach_loader
           (runner_ending (inl tt)) (mkEnv "/a" "/a")
           (engine_args (Some "vagrant") (Some "slurm")) plain_sink _
           eq_refl).
Defined.

Lemma unknown_engine_rejected_sample :
  run_command (runner_ending (inl tt)) (mkEnv "/a" "/a")
              (engine_args (Some "Docker") None) plain_sink = None.
Proof. reflexivity. Qed.

Lemma explicit_workspace_passed_witness :
  loads_workspace "/data/ws"
    (trace_of (main (runner_ending (inl tt)) (mkEnv "/a" "/b")
                    (sample_args None [] false false (Some "/data/ws"))
                    plain_sink)).
Proof.
  apply (explicit_workspace_passed
           (runner_ending (inl tt)) (mkEnv "/a" "/b")
           (sample_args None [] false false (Some "/data/ws")) plain_sink
           "/data/ws" eq_refl).
Defined.
